(** * Application health extension: health probes and the VMWatch supervisor

    A shallow embedding of [main/vmWatch.go] (the VMWatch process
    supervisor) and of the health-probe file that accompanies it
    ([HealthProbe], [TcpHealthProbe], [HttpHealthProbe],
    [DefaultHealthProbe]), together with the properties the design
    document states about them.

    Conventions.
    - Go's [int] is [Z]; a Go [string] is [string]; a nilable [error] or
      pointer is an [option].
    - Everything the operating system, the network or a library decides
      (does the dial succeed, what does the process print, when does it
      exit) is read from an explicit environment record; every effect the
      code performs is appended to an explicit event list. *)

From Stdlib Require Import ZArith String Ascii List Lia DecimalString DecimalZ DecimalPos.
From stdpp Require Import base gmap list strings fin_maps.

Local Open Scope Z_scope.

(** ** The Go library functions the code calls *)

(** [error]: the values built by [errors.New] and by [fmt.Errorf]. *)
Inductive error : Type :=
| errorString (msg : string)
| wrapError (msg : string) (wrapped : error).

Module Errors.
Definition New (msg : string) : error := errorString msg.

(** The [Error()] method. *)
Definition Error (e : error) : string :=
  match e with
  | errorString m => m
  | wrapError m _ => m
  end.

Definition Unwrap (e : error) : option error :=
  match e with
  | errorString _ => None
  | wrapError _ w => Some w
  end.
End Errors.

Module Strconv.
(** [strconv.Itoa]: decimal rendering, with a leading minus sign for
    negative numbers. *)
Definition Itoa (n : Z) : string := NilZero.string_of_int (Z.to_int n).
End Strconv.

Module GoStrings.
Definition HasPrefix (s prefix : string) : bool := String.prefix prefix s.

(** [s[n:]] *)
Fixpoint slice_from (n : nat) (s : string) : string :=
  match n, s with
  | O, _ => s
  | S n', String _ s' => slice_from n' s'
  | S _, EmptyString => EmptyString
  end.

(** [strings.TrimPrefix]: [s] without the leading [prefix], or [s]
    itself when it does not start with [prefix]. *)
Definition TrimPrefix (s prefix : string) : string :=
  if HasPrefix s prefix then slice_from (String.length prefix) s else s.

(** [strings.Contains]: [substr] occurs somewhere in [s]. *)
Fixpoint Contains (s substr : string) : bool :=
  String.prefix substr s ||
  match s with
  | EmptyString => false
  | String _ s' => Contains s' substr
  end.

(** [strings.Join] *)
Fixpoint Join (elems : list string) (sep : string) : string :=
  match elems with
  | [] => EmptyString
  | [e] => e
  | e :: rest => e +:+ sep +:+ Join rest sep
  end.
End GoStrings.

Module Fmt.
(** What [fmt] prints for an [error] operand under [%w] (inside
    [fmt.Errorf]): the error's message, or the bad-verb marker for a
    nil operand. *)
Definition verb_w (err : option error) : string :=
  match err with
  | Some e => Errors.Error e
  | None => "%!w(<nil>)"
  end.

(** [fmt.Errorf] with exactly one [%w] operand, whose formatted message
    is [msg]: it wraps a non-nil operand and is a plain error for a nil
    one. *)
Definition Errorf_w (msg : string) (err : option error) : error :=
  match err with
  | Some e => wrapError msg e
  | None => errorString msg
  end.
End Fmt.

Module Time.
(** [time.Duration] counts nanoseconds. *)
Definition Duration := Z.
Definition Second : Duration := 1000000000.
End Time.

(** A log line written through [ctx.Log(key, value)]. *)
Definition LogEntry : Type := string * string.

(** A Go call either returns or panics. *)
Inductive outcome (A : Type) : Type :=
| Returns (a : A)
| Panics (msg : string).
Arguments Returns {A} a.
Arguments Panics {A} msg.

(** ** Health probes *)

(** [type HealthStatus string] with its five named values. *)
Definition HealthStatus : Type := string.
Definition Initializing : HealthStatus := "Initializing".
Definition Healthy : HealthStatus := "Healthy".
Definition Unhealthy : HealthStatus := "Unhealthy".
Definition Unknown : HealthStatus := "Unknown".
Definition Empty : HealthStatus := EmptyString.

Record TcpHealthProbe : Type := { Tcp_Address : string }.

(** [http.Transport], as far as the constructor fills it in. *)
Record Transport : Type := { InsecureSkipVerify : bool }.

(** [http.Client]; [CheckRedirect_noRedirect] says that the redirect policy
    is the function [noRedirect]. *)
Record Client : Type := {
  CheckRedirect_noRedirect : bool;
  Timeout : Time.Duration;
  Client_Transport : option Transport
}.

Record HttpHealthProbe : Type := {
  HttpClient : option Client;
  Http_Address : string
}.

Inductive DefaultHealthProbe : Type := mkDefaultHealthProbe.

(** The interface [HealthProbe]: one constructor per implementing type. *)
Inductive HealthProbe : Type :=
| TcpProbe (p : TcpHealthProbe)
| HttpProbe (p : HttpHealthProbe)
| DefaultProbe (p : DefaultHealthProbe).

Definition errNoRedirect : error := Errors.New "No redirect allowed".
Definition errUnableToConvertType : error := Errors.New "Unable to convert type".

(** Modelled from the spec: the type [handlerSettings] is declared outside
    this file; the probe factory only calls its accessors [protocol()],
    [port()] and [requestPath()], whose results are the three fields. An
    absent protocol is the empty string. *)
Record handlerSettings : Type := {
  protocol : string;
  port : Z;
  requestPath : string
}.

Definition NewHttpHealthProbe (protocol requestPath : string) (port : Z)
  : HttpHealthProbe :=
  let timeout := 30 * Time.Second in
  let client :=
    if String.eqb protocol "https" then
      Some {| CheckRedirect_noRedirect := true;
              Timeout := timeout;
              Client_Transport := Some {| InsecureSkipVerify := true |} |}
    else if String.eqb protocol "http" then
      Some {| CheckRedirect_noRedirect := true;
              Timeout := timeout;
              Client_Transport := None |}
    else None in
  let portString :=
    if String.eqb protocol "http" && negb (port =? 0) && negb (port =? 80)
    then ":" +:+ Strconv.Itoa port
    else if String.eqb protocol "https" && negb (port =? 0) && negb (port =? 443)
    then ":" +:+ Strconv.Itoa port
    else EmptyString in
  let requestPath := GoStrings.TrimPrefix requestPath "/" in
  {| HttpClient := client;
     Http_Address := protocol +:+ "://localhost" +:+ portString +:+ "/" +:+ requestPath |}.

Definition TcpHealthProbe_address (p : TcpHealthProbe) : string := Tcp_Address p.
Definition HttpHealthProbe_address (p : HttpHealthProbe) : string := Http_Address p.
Definition DefaultHealthProbe_address (p : DefaultHealthProbe) : string := EmptyString.

Definition address (p : HealthProbe) : string :=
  match p with
  | TcpProbe t => TcpHealthProbe_address t
  | HttpProbe h => HttpHealthProbe_address h
  | DefaultProbe d => DefaultHealthProbe_address d
  end.

(** [NewHealthProbe]: the probe and the lines it logs. *)
Definition NewHealthProbe (cfg : handlerSettings) : list LogEntry * HealthProbe :=
  if String.eqb (protocol cfg) "tcp" then
    let p := TcpProbe {| Tcp_Address := "localhost:" +:+ Strconv.Itoa (port cfg) |} in
    ([("event", "creating tcp probe targeting " +:+ address p)], p)
  else if String.eqb (protocol cfg) "http" || String.eqb (protocol cfg) "https" then
    let p := HttpProbe (NewHttpHealthProbe (protocol cfg) (requestPath cfg) (port cfg)) in
    ([("event", "creating " +:+ protocol cfg +:+ " probe targeting " +:+ address p)], p)
  else
    ([("event", "default settings without probe")], DefaultProbe mkDefaultHealthProbe).

Definition TcpHealthProbe_healthStatusAfterGracePeriodExpires
  (p : TcpHealthProbe) : HealthStatus := Unhealthy.
Definition HttpHealthProbe_healthStatusAfterGracePeriodExpires
  (p : HttpHealthProbe) : HealthStatus := Unknown.
Definition DefaultHealthProbe_healthStatusAfterGracePeriodExpires
  (p : DefaultHealthProbe) : HealthStatus := Unhealthy.

Definition healthStatusAfterGracePeriodExpires (p : HealthProbe) : HealthStatus :=
  match p with
  | TcpProbe t => TcpHealthProbe_healthStatusAfterGracePeriodExpires t
  | HttpProbe h => HttpHealthProbe_healthStatusAfterGracePeriodExpires h
  | DefaultProbe d => DefaultHealthProbe_healthStatusAfterGracePeriodExpires d
  end.


(** *** Evaluating a probe

    The network and the libraries are an environment [NetEnv]; the calls a
    probe makes are recorded as [IOEvent]s. *)

(** A [net.Conn] returned by the dialer: the concrete type behind the
    interface is [*net.TCPConn] or something else. *)
Inductive Conn : Type :=
| TCPConn (id : nat)
| OtherConn (id : nat).

(** [http.Request], as far as [evaluate] touches it. *)
Record Request : Type := {
  Method : string;
  URL : string;
  Header : list (string * string)
}.

(** [Header.Set]: replaces the values stored under [key]. *)
Definition Header_Set (req : Request) (key value : string) : Request :=
  {| Method := Method req;
     URL := URL req;
     Header := (key, value)
               :: filter (fun kv => negb (String.eqb (fst kv) key)) (Header req) |}.

(** [http.Response]: the status code, and what [ioutil.ReadAll] gives on
    its body. *)
Record Response : Type := {
  StatusCode : Z;
  Body : string + error
}.

(** [ProbeResponse] is declared in another file of the package; its one
    field that [evaluate] reads is the application's health state. *)
Record ProbeResponse : Type := { ApplicationHealthState : HealthStatus }.

Record NetEnv : Type := {
  (** [net.DialTimeout(network, address, timeout)] *)
  net_DialTimeout : string -> string -> Time.Duration -> Conn + error;
  (** does [http.NewRequest] reject this URL? *)
  url_Parse : string -> option error;
  (** [client.Do(req)] *)
  client_Do : Client -> Request -> Response + error;
  (** [json.Unmarshal(body, probeResponse)] on a fresh [ProbeResponse] *)
  json_Unmarshal : string -> ProbeResponse * option error;
  (** [probeResponse.validate()], declared beside [ProbeResponse] *)
  validate : ProbeResponse -> option error
}.

Inductive IOEvent : Type :=
| EvDial (network address : string) (timeout : Time.Duration)
| EvSetLinger (c : nat) (sec : Z)
| EvConnClose (c : nat)
| EvDo (c : Client) (req : Request)
| EvReadAll
| EvBodyClose.

(** [http.NewRequest(method, url, nil)] for a valid method. *)
Definition http_NewRequest (env : NetEnv) (method url : string) : Request + error :=
  match url_Parse env url with
  | Some err => inr err
  | None => inl {| Method := method; URL := url; Header := [] |}
  end.

(** The result of [evaluate]: the effects performed, and the returned pair
    (or a panic). *)
Definition EvalResult : Type := list IOEvent * outcome (HealthStatus * option error).

Definition TcpHealthProbe_evaluate (env : NetEnv) (p : TcpHealthProbe) : EvalResult :=
  let addr := TcpHealthProbe_address p in
  let timeout := 30 * Time.Second in
  match net_DialTimeout env "tcp" addr timeout with
  | inr _ => ([EvDial "tcp" addr timeout], Returns (Unhealthy, None))
  | inl conn =>
      match conn with
      | OtherConn _ =>
          ([EvDial "tcp" addr timeout], Returns (Unhealthy, Some errUnableToConvertType))
      | TCPConn c =>
          ([EvDial "tcp" addr timeout; EvSetLinger c 0; EvConnClose c],
           Returns (Healthy, None))
      end
  end.

Definition HttpHealthProbe_evaluate (env : NetEnv) (p : HttpHealthProbe) : EvalResult :=
  match http_NewRequest env "GET" (HttpHealthProbe_address p) with
  | inr err => ([], Returns (Unknown, Some err))
  | inl req =>
      let req := Header_Set req "User-Agent" "ApplicationHealthExtension/1.0" in
      match HttpClient p with
      | None => ([], Panics "invalid memory address or nil pointer dereference")
      | Some client =>
          match client_Do env client req with
          | inr err => ([EvDo client req], Returns (Unknown, Some err))
          | inl resp =>
              if (StatusCode resp <? 200) || (StatusCode resp >? 299) then
                ([EvDo client req; EvBodyClose], Returns (Unknown, None))
              else
                match Body resp with
                | inr err =>
                    ([EvDo client req; EvReadAll; EvBodyClose],
                     Returns (Unknown, Some err))
                | inl bodyBytes =>
                    let io := [EvDo client req; EvReadAll; EvBodyClose] in
                    match json_Unmarshal env bodyBytes with
                    | (_, Some err) => (io, Returns (Unknown, Some err))
                    | (probeResponse, None) =>
                        match validate env probeResponse with
                        | Some err => (io, Returns (Unknown, Some err))
                        | None =>
                            (io, Returns (ApplicationHealthState probeResponse, None))
                        end
                    end
                end
          end
      end
  end.

Definition DefaultHealthProbe_evaluate (env : NetEnv) (p : DefaultHealthProbe)
  : EvalResult :=
  ([], Returns (Healthy, None)).

Definition evaluate (env : NetEnv) (p : HealthProbe) : EvalResult :=
  match p with
  | TcpProbe t => TcpHealthProbe_evaluate env t
  | HttpProbe h => HttpHealthProbe_evaluate env h
  | DefaultProbe d => DefaultHealthProbe_evaluate env d
  end.

(** ** The VMWatch supervisor *)

(** [type VMWatchStatus string] with its three named values. *)
Definition VMWatchStatus : Type := string.
Definition Disabled : VMWatchStatus := "Disabled".
Definition Running : VMWatchStatus := "Running".
Definition Failed : VMWatchStatus := "Failed".

Record VMWatchResult : Type := {
  Status : VMWatchStatus;
  Error : option error
}.

(** A value of a parameter override ([interface{}]): a string, or
    anything else, kept as the text [fmt] prints for it under [%s]. *)
Inductive Value : Type :=
| VString (s : string)
| VOther (printed : string).

Definition verb_s (v : Value) : string :=
  match v with
  | VString s => s
  | VOther printed => printed
  end.

(** One override rendered with ["%s=%s"]. *)
Definition overrideEntry (kv : string * Value) : string :=
  fst kv +:+ "=" +:+ verb_s (snd kv).

(** [%v] of a [[]string]. *)
Definition verb_v_strings (l : list string) : string :=
  "[" +:+ GoStrings.Join l " " +:+ "]".

(** The fields of [vmWatchSettings] the supervisor reads. *)
Record vmWatchSettings : Type := {
  Tests : list string;
  ParameterOverrides : gmap string Value
}.

(** [vmextension.HandlerEnvironment], reduced to
    [HandlerEnvironment.LogFolder]. *)
Record HandlerEnvironment : Type := { LogFolder : string }.

(** [os.Process] and [exec.Cmd]. *)
Record Process : Type := { Pid : Z }.

Record Cmd : Type := {
  Path : string;
  Args : list string;
  Dir : string;
  Env : list string;
  Cmd_Process : option Process
}.

(** [exec.Command(name, arg...)] *)
Definition exec_Command (name : string) (arg : list string) : Cmd :=
  {| Path := name; Args := name :: arg; Dir := EmptyString; Env := []; Cmd_Process := None |}.

Definition set_Env (cmd : Cmd) (env : list string) : Cmd :=
  {| Path := Path cmd; Args := Args cmd; Dir := Dir cmd; Env := env;
     Cmd_Process := Cmd_Process cmd |}.

Definition set_Process (cmd : Cmd) (p : option Process) : Cmd :=
  {| Path := Path cmd; Args := Args cmd; Dir := Dir cmd; Env := Env cmd;
     Cmd_Process := p |}.

(** What [cmd.Start()] does: whether [cmd.Process] is set, the returned
    error, and what the process has written to the output buffer by the
    time the call returns. *)
Record StartResult : Type := {
  startProcess : option Process;
  startErr : option error;
  startOutput : string
}.

(** What [cmd.Wait()] does: it returns an error (nil for exit status 0) after
    the process wrote some more output, or the process never exits. *)
Inductive WaitResult : Type :=
| WaitReturns (err : option error) (output : string)
| WaitForever.

(** What the operating system and the runtime do during one attempt. *)
Record AttemptEnv : Type := {
  (** [filepath.Abs], which reads the working directory *)
  filepath_Abs : string -> string + error;
  (** the order in which [range] visits the entries of a map *)
  range_order : gmap string Value -> list (string * Value);
  (** [time.Now().UTC().Format(time.RFC3339)] when the error is recorded *)
  now : string;
  cmd_Start : StartResult;
  cmd_Wait : WaitResult
}.

(** What the supervisor does, in order. *)
Inductive SupEvent : Type :=
| Log (key value : string)
| SetupCommand
| Start (cmd : Cmd)
| Wait (cmd : Cmd)
| Kill (p : Process)
| Send (r : VMWatchResult).

(** The messages sent on the result channel. *)
Definition sent (tr : list SupEvent) : list VMWatchResult :=
  omap (fun e => match e with Send r => Some r | _ => None end) tr.

(** The number of attempts: every turn of the retry loop starts with one
    call of [setupVMWatchCommand]. *)
Definition is_SetupCommand (e : SupEvent) : bool :=
  match e with SetupCommand => true | _ => false end.

Definition is_Kill (e : SupEvent) : bool :=
  match e with Kill _ => true | _ => false end.

Definition attempts (tr : list SupEvent) : nat :=
  length (List.filter is_SetupCommand tr).

(** The local variables of [executeVMWatch], the events so far, and the
    history of the assignments to [vmWatchErr] (oldest first). *)
Record SupervisorState : Type := {
  pid : Z;
  combinedOutput : string;
  vmWatchErr : option error;
  recorded : list error;
  trace : list SupEvent
}.

Definition emit (e : SupEvent) (st : SupervisorState) : SupervisorState :=
  {| pid := pid st; combinedOutput := combinedOutput st;
     vmWatchErr := vmWatchErr st; recorded := recorded st;
     trace := trace st ++ [e] |}.

Definition set_pid (p : Z) (st : SupervisorState) : SupervisorState :=
  {| pid := p; combinedOutput := combinedOutput st;
     vmWatchErr := vmWatchErr st; recorded := recorded st;
     trace := trace st |}.

Definition set_combinedOutput (out : string) (st : SupervisorState) : SupervisorState :=
  {| pid := pid st; combinedOutput := out;
     vmWatchErr := vmWatchErr st; recorded := recorded st;
     trace := trace st |}.

Definition set_vmWatchErr (e : error) (st : SupervisorState) : SupervisorState :=
  {| pid := pid st; combinedOutput := combinedOutput st;
     vmWatchErr := Some e; recorded := recorded st ++ [e];
     trace := trace st |}.

Definition newline : string := String (ascii_of_nat 10) EmptyString.

(** The result of a call that may block for ever; [OutOfFuel] is the
    model's own bound on the number of loop turns, never the program's. *)
Inductive run (A : Type) : Type :=
| Finished (a : A)
| BlockedForever
| OutOfFuel.
Arguments Finished {A} a.
Arguments BlockedForever {A}.
Arguments OutOfFuel {A}.

(** [killVMWatch]; [kill p] is what [p.Kill()] returns. *)
Definition killVMWatch (kill : Process -> option error) (cmd : option Cmd)
  : list SupEvent * option error :=
  match cmd with
  | None => ([Log "event" "VMWatch is not running, not killing process."], None)
  | Some c =>
      match Cmd_Process c with
      | None => ([Log "event" "VMWatch is not running, not killing process."], None)
      | Some p =>
          match kill p with
          | Some err =>
              ([Kill p;
                Log "error" ("Failed to kill VMWatch process with PID "
                             +:+ Strconv.Itoa (Pid p) +:+ ". Error: "
                             +:+ Errors.Error err)],
               Some err)
          | None =>
              ([Kill p;
                Log "event" ("Successfully killed VMWatch process with PID "
                             +:+ Strconv.Itoa (Pid p))],
               None)
          end
      end
  end.

(** ** Status types and messages *)

(** [%v] of an [error] operand. *)
Definition verb_v_error (err : option error) : string :=
  match err with
  | Some e => Errors.Error e
  | None => "<nil>"
  end.

(** [(r *VMWatchResult) GetMessage] *)
Definition GetMessage (r : VMWatchResult) : string :=
  if String.eqb (Status r) Disabled then "VMWatch is disabled"
  else if String.eqb (Status r) Failed then "VMWatch failed: " +:+ verb_v_error (Error r)
  else "VMWatch is running".

(** [noRedirect], the redirect policy of both clients. *)
Definition noRedirect (req : Request) (via : list Request) : option error :=
  Some errNoRedirect.

Definition is_EvBodyClose (e : IOEvent) : bool :=
  match e with EvBodyClose => true | _ => false end.

Definition is_EvDo (e : IOEvent) : bool :=
  match e with EvDo _ _ => true | _ => false end.

Section StatusTypes.

(** [StatusType] and its values are declared in another file of the
    package. *)
Variable StatusType : Type.
Variables StatusWarning StatusError StatusSuccess : StatusType.

(** [(p VMWatchStatus) GetStatusType] *)
Definition VMWatchStatus_GetStatusType (p : VMWatchStatus) : StatusType :=
  if String.eqb p Disabled then StatusWarning
  else if String.eqb p Failed then StatusError
  else StatusSuccess.

(** [(p HealthStatus) GetStatusType] *)
Definition HealthStatus_GetStatusType (p : HealthStatus) : StatusType :=
  if String.eqb p Unknown then StatusError else StatusSuccess.

End StatusTypes.

(** ** The design document's wording of the probe address

    Stated from the document, to be compared with what
    [NewHttpHealthProbe] computes. *)

(** "the scheme's default (80 for http, 443 for https)" *)
Definition defaultPort (scheme : string) : Z :=
  if String.eqb scheme "https" then 443 else 80.

(** "the port suffix is omitted when the port is absent or equals the
    scheme's default" *)
Definition spec_portSuffix (scheme : string) (port : Z) : string :=
  if (port =? 0) || (port =? defaultPort scheme) then EmptyString
  else ":" +:+ Strconv.Itoa port.

(** "the path is normalized to not require a caller-supplied leading
    slash": one leading slash, when there is one, is dropped. *)
Definition spec_stripLeadingSlash (path : string) : string :=
  match path with
  | String c rest => if Ascii.eqb c "/" then rest else path
  | EmptyString => path
  end.

(** ** Concrete environments, used to run the definitions *)
Module Ex.

Definition abs_ok (p : string) : string + error :=
  inl ("/var/lib/waagent/bin/" +:+ p).

(** [os.Getwd] fails, for instance after the working directory was
    removed. *)
Definition abs_fails (p : string) : string + error :=
  inr (Errors.New "getwd: no such file or directory").

(** The watcher starts with process id [pid] and exits with status 1. *)
Definition exits (pid : Z) (ts : string) : AttemptEnv :=
  {| filepath_Abs := abs_ok; range_order := map_to_list; now := ts;
     cmd_Start := {| startProcess := Some {| Pid := pid |}; startErr := None;
                     startOutput := EmptyString |};
     cmd_Wait := WaitReturns (Some (Errors.New "exit status 1")) "boom" |}.

(** [setupVMWatchCommand] fails. *)
Definition setupFails (ts : string) : AttemptEnv :=
  {| filepath_Abs := abs_fails; range_order := map_to_list; now := ts;
     cmd_Start := {| startProcess := None; startErr := None; startOutput := EmptyString |};
     cmd_Wait := WaitForever |}.

(** The watcher starts and keeps running. *)
Definition keepsRunning (pid : Z) (ts : string) : AttemptEnv :=
  {| filepath_Abs := abs_ok; range_order := map_to_list; now := ts;
     cmd_Start := {| startProcess := Some {| Pid := pid |}; startErr := None;
                     startOutput := EmptyString |};
     cmd_Wait := WaitForever |}.

(** Attempt 1 runs process 4242 until it exits, attempt 2 fails in setup,
    every later attempt runs process 4243 until it exits. *)
Definition startThenSetupFails (i : Z) : AttemptEnv :=
  if i =? 1 then exits 4242 "2024-05-01T10:00:00Z"
  else if i =? 2 then setupFails "2024-05-01T10:00:05Z"
  else exits 4243 "2024-05-01T10:00:09Z".

Definition alwaysExits (i : Z) : AttemptEnv := exits (4000 + i) "2024-05-01T10:00:00Z".

Definition Join (l : list string) : string := GoStrings.Join l "/".
Definition Dir (p : string) : string := "/var/lib/waagent/bin".

Definition settings : vmWatchSettings :=
  {| Tests := ["disk_io"; "clockskew"];
     ParameterOverrides := {[ "ABC" := VString "abc" ]} |}.

Definition handlerEnv : HandlerEnvironment := {| LogFolder := "/var/log/azure" |}.

(** An endpoint that answers every request with [status] and [body];
    the decoder accepts the one body
    [{"ApplicationHealthState":"Healthy"}]. *)
Definition healthyBody : string :=
  "{" +:+ String (ascii_of_nat 34) "ApplicationHealthState" +:+ String (ascii_of_nat 34) ":"
  +:+ String (ascii_of_nat 34) "Healthy" +:+ String (ascii_of_nat 34) "}".

Definition endpoint (status : Z) (body : string) : NetEnv :=
  {| net_DialTimeout := fun _ _ _ => inl (TCPConn 7);
     url_Parse := fun _ => None;
     client_Do := fun _ _ => inl {| StatusCode := status; Body := inl body |};
     json_Unmarshal := fun b =>
       if String.eqb b healthyBody
       then ({| ApplicationHealthState := Healthy |}, None)
       else ({| ApplicationHealthState := Empty |},
             Some (Errors.New "invalid character"));
     validate := fun pr =>
       if String.eqb (ApplicationHealthState pr) Healthy
          || String.eqb (ApplicationHealthState pr) Unhealthy
       then None
       else Some (Errors.New "Response body key should be ApplicationHealthState") |}.

(** A network in which nothing listens and no URL parses. *)
Definition unreachable : NetEnv :=
  {| net_DialTimeout := fun _ _ _ => inr (Errors.New "connection refused");
     url_Parse := fun _ => Some (Errors.New "missing protocol scheme");
     client_Do := fun _ _ => inr (Errors.New "connection refused");
     json_Unmarshal := fun _ => ({| ApplicationHealthState := Empty |}, None);
     validate := fun _ => None |}.

(** The dialer hands back a connection that is not a [*net.TCPConn]. *)
Definition otherConn : NetEnv :=
  {| net_DialTimeout := fun _ _ _ => inl (OtherConn 3);
     url_Parse := fun _ => None;
     client_Do := fun _ _ => inr (Errors.New "connection refused");
     json_Unmarshal := fun _ => ({| ApplicationHealthState := Empty |}, None);
     validate := fun _ => None |}.

End Ex.

Section Supervisor.

(** Constants of the package that are declared in another file, the
    program's [os.Args[0]], and the two pure [path/filepath] functions
    the code calls. *)
Variable VMWatchMaxProcessAttempts : Z.
Variables VMWatchConfigFileName VMWatchBinaryNameAmd64 VMWatchBinaryNameArm64
          AppHealthBinaryNameArm64 VMWatchDefaultTests
          HandlerEnvironmentEventsFolderPath VMWatchVerboseLogFileName : string.
Variable os_Args0 : string.
Variable filepath_Dir : string -> string.
Variable filepath_Join : list string -> string.

Definition GetProcessDirectory (e : AttemptEnv) : string + error :=
  match filepath_Abs e os_Args0 with
  | inr err => inr err
  | inl p => inl (filepath_Dir p)
  end.

Definition GetVMWatchConfigFullPath (processDirectory : string) : string :=
  filepath_Join [processDirectory; "VMWatch"; VMWatchConfigFileName].

Definition GetVMWatchBinaryFullPath (processDirectory : string) : string :=
  let binaryName :=
    if GoStrings.Contains os_Args0 AppHealthBinaryNameArm64
    then VMWatchBinaryNameArm64 else VMWatchBinaryNameAmd64 in
  filepath_Join [processDirectory; "VMWatch"; binaryName].

(** [range] is the order in which the loop visits the map. *)
Definition GetVMWatchEnvironmentVariables
  (range : gmap string Value -> list (string * Value))
  (parameterOverrides : gmap string Value) (h : HandlerEnvironment) : list string :=
  let arr :=
    fold_left (fun arr kv => arr ++ [fst kv +:+ "=" +:+ verb_s (snd kv)])
              (range parameterOverrides) [] in
  let arr := arr ++ ["SIGNAL_FOLDER=" +:+ HandlerEnvironmentEventsFolderPath] in
  let arr := arr ++ ["VERBOSE_LOG_FILE_FULL_PATH="
                     +:+ filepath_Join [LogFolder h; VMWatchVerboseLogFileName]] in
  arr.

Definition setupVMWatchCommand (e : AttemptEnv) (s : vmWatchSettings)
  (h : HandlerEnvironment) : Cmd + error :=
  match GetProcessDirectory e with
  | inr err => inr err
  | inl processDirectory =>
      let args := ["--config"; GetVMWatchConfigFullPath processDirectory] in
      let args := args ++ ["--input-filter"] in
      let args :=
        if 0 <? Z.of_nat (length (Tests s))
        then args ++ [GoStrings.Join (Tests s) ":"]
        else args ++ [VMWatchDefaultTests] in
      let cmd := exec_Command (GetVMWatchBinaryFullPath processDirectory) args in
      inl (set_Env cmd
             (GetVMWatchEnvironmentVariables (range_order e) (ParameterOverrides s) h))
  end.

(** The message of the recorded error: ["[%v][PID %d] Err: %w"]. *)
Definition errPrefix (ts : string) (pid : Z) (err : option error) : string :=
  "[" +:+ ts +:+ "][PID " +:+ Strconv.Itoa pid +:+ "] Err: " +:+ Fmt.verb_w err.

(** ... followed by ["\nOutput: %s"]. *)
Definition errWithOutput (ts : string) (pid : Z) (err : option error)
  (output : string) : string :=
  errPrefix ts pid err +:+ newline +:+ "Output: " +:+ output.

Definition attemptLabel (i : Z) : string := "Attempt " +:+ Strconv.Itoa i.

(** One turn of the retry loop; [None] when [cmd.Wait()] never returns. *)
Definition attempt (e : AttemptEnv) (s : vmWatchSettings) (h : HandlerEnvironment)
  (i : Z) (st : SupervisorState) : option SupervisorState :=
  let st := emit SetupCommand st in
  match setupVMWatchCommand e s h with
  | inr err =>
      let vmWatchErr := Fmt.Errorf_w (errPrefix (now e) (pid st) (Some err)) (Some err) in
      let st := set_vmWatchErr vmWatchErr st in
      Some (emit (Log "error" (attemptLabel i +:+ ": VMWatch setup failed: "
                               +:+ Errors.Error vmWatchErr)) st)
  | inl cmd =>
      let st := emit (Log "event"
                        (attemptLabel i +:+ ": Setup VMWatch command: " +:+ Path cmd
                         +:+ newline +:+ "Args: " +:+ verb_v_strings (Args cmd)
                         +:+ newline +:+ "Dir: " +:+ Dir cmd
                         +:+ newline +:+ "Env: " +:+ verb_v_strings (Env cmd)
                         +:+ newline)) st in
      let st := set_combinedOutput EmptyString st in
      let st := emit (Start cmd) st in
      let cmd := set_Process cmd (startProcess (cmd_Start e)) in
      let st := set_combinedOutput (combinedOutput st +:+ startOutput (cmd_Start e)) st in
      let st := match Cmd_Process cmd with
                | None => set_pid (-1) st
                | Some p => set_pid (Pid p) st
                end in
      match startErr (cmd_Start e) with
      | Some err =>
          let vmWatchErr :=
            Fmt.Errorf_w (errWithOutput (now e) (pid st) (Some err) (combinedOutput st))
                         (Some err) in
          let st := set_vmWatchErr vmWatchErr st in
          Some (emit (Log "error" (attemptLabel i +:+ ": VMWatch failed to start: "
                                   +:+ Errors.Error vmWatchErr)) st)
      | None =>
          let st := emit (Log "event"
                            (attemptLabel i +:+ ": VMWatch process started with pid "
                             +:+ Strconv.Itoa (pid st))) st in
          let st := emit (Wait cmd) st in
          match cmd_Wait e with
          | WaitForever => None
          | WaitReturns err output =>
              let st := set_combinedOutput (combinedOutput st +:+ output) st in
              let vmWatchErr :=
                Fmt.Errorf_w (errWithOutput (now e) (pid st) err (combinedOutput st))
                             err in
              let st := set_vmWatchErr vmWatchErr st in
              Some (emit (Log "error" (attemptLabel i +:+ ": VMWatch process exited: "
                                       +:+ Errors.Error vmWatchErr)) st)
          end
      end
  end.

(** [for i := 1; i <= VMWatchMaxProcessAttempts; i++ { ... }], from counter
    value [i]; [os i] is the environment of attempt [i]. *)
Fixpoint retryLoop (fuel : nat) (os : Z -> AttemptEnv) (s : vmWatchSettings)
  (h : HandlerEnvironment) (i : Z) (st : SupervisorState) : run SupervisorState :=
  match fuel with
  | O => OutOfFuel
  | S fuel' =>
      if i <=? VMWatchMaxProcessAttempts then
        match attempt (os i) s h i st with
        | Some st' => retryLoop fuel' os s h (i + 1) st'
        | None => BlockedForever
        end
      else Finished st
  end.

(** The deferred function: one log line, then the send on the channel. *)
Definition signalFailed (st : SupervisorState) : SupervisorState :=
  let st := emit (Log "error"
                    ("Signaling VMWatchStatus is Failed due to reaching max of "
                     +:+ Strconv.Itoa VMWatchMaxProcessAttempts +:+ " retries")) st in
  emit (Send {| Status := Failed; Error := vmWatchErr st |}) st.

Definition initialState : SupervisorState :=
  {| pid := -1; combinedOutput := EmptyString; vmWatchErr := None; recorded := [];
     trace := [] |}.

(** [executeVMWatch]: the state when the function returns, whose [trace]
    holds everything it did, the send on [vmWatchResultChannel]
    included. *)
Definition executeVMWatch (fuel : nat) (os : Z -> AttemptEnv) (s : vmWatchSettings)
  (h : HandlerEnvironment) : run SupervisorState :=
  match retryLoop fuel os s h 1 initialState with
  | Finished st => Finished (signalFailed st)
  | BlockedForever => BlockedForever
  | OutOfFuel => OutOfFuel
  end.

(** The attempt comes to an end: it does not reach a [cmd.Wait()] that
    never returns. *)
Definition attemptEnds (e : AttemptEnv) : bool :=
  match filepath_Abs e os_Args0, startErr (cmd_Start e), cmd_Wait e with
  | inl _, None, WaitForever => false
  | _, _, _ => true
  end.

(** The process id an attempt that passed its setup leaves in [pid]. *)
Definition attemptPid (e : AttemptEnv) : Z :=
  match startProcess (cmd_Start e) with
  | None => -1
  | Some p => Pid p
  end.

(** What such an attempt leaves in [combinedOutput]. *)
Definition attemptOutput (e : AttemptEnv) : string :=
  match startErr (cmd_Start e), cmd_Wait e with
  | None, WaitReturns _ output => startOutput (cmd_Start e) +:+ output
  | _, _ => startOutput (cmd_Start e)
  end.

(** The error such an attempt wraps: the one of [cmd.Start()], or else the
    one of [cmd.Wait()]. *)
Definition attemptCause (e : AttemptEnv) : option error :=
  match startErr (cmd_Start e), cmd_Wait e with
  | Some err, _ => Some err
  | None, WaitReturns err _ => err
  | None, WaitForever => None
  end.

(** *** Bookkeeping on traces *)

Lemma attempts_app (a b : list SupEvent) :
  attempts (a ++ b) = (attempts a + attempts b)%nat.
Proof. unfold attempts. by rewrite List.filter_app, length_app. Qed.

Lemma sent_app (a b : list SupEvent) : sent (a ++ b) = sent a ++ sent b.
Proof. unfold sent. apply omap_app. Qed.

Lemma attempts_snoc (tr : list SupEvent) (e : SupEvent) :
  attempts (tr ++ [e]) = (attempts tr + if is_SetupCommand e then 1 else 0)%nat.
Proof. rewrite attempts_app. unfold attempts at 2. cbn. by destruct (is_SetupCommand e). Qed.

Lemma sent_snoc (tr : list SupEvent) (e : SupEvent) :
  sent (tr ++ [e]) = sent tr ++ match e with Send r => [r] | _ => [] end.
Proof. rewrite sent_app. f_equal. by destruct e. Qed.

Local Ltac attempt_done :=
  eexists _, _; split; [reflexivity|];
  cbn [trace recorded vmWatchErr pid combinedOutput emit set_vmWatchErr set_pid
       set_combinedOutput Cmd_Process set_Process];
  rewrite !attempts_snoc, !sent_snoc; cbn [is_SetupCommand];
  rewrite ?app_nil_r; repeat split; lia.

(** What one attempt that ends does to the state: one more call of
    [setupVMWatchCommand], exactly one more recorded error, which is the
    current [vmWatchErr], and nothing sent. *)
Lemma attempt_ends (e : AttemptEnv) (s : vmWatchSettings) (h : HandlerEnvironment)
  (i : Z) (st : SupervisorState) :
  attemptEnds e = true ->
  exists st' err,
    attempt e s h i st = Some st'
    /\ recorded st' = recorded st ++ [err]
    /\ vmWatchErr st' = Some err
    /\ attempts (trace st') = S (attempts (trace st))
    /\ sent (trace st') = sent (trace st).
Proof.
  unfold attemptEnds, attempt, setupVMWatchCommand, GetProcessDirectory.
  destruct (filepath_Abs e os_Args0) as [dir|err0]; cbn zeta.
  - destruct (cmd_Start e) as [[proc|] [err1|] sout];
      cbn [startErr startProcess startOutput];
      try (destruct (cmd_Wait e) as [werr wout|]; [|discriminate]);
      intros _; attempt_done.
  - intros _; attempt_done.
Qed.

(** The loop from counter value [i] on: when every remaining attempt
    ends, it makes [VMWatchMaxProcessAttempts + 1 - i] attempts, each
    recording one error, sends nothing, and leaves the last recorded
    error in [vmWatchErr]. *)
Lemma retryLoop_finishes (os : Z -> AttemptEnv) (s : vmWatchSettings)
  (h : HandlerEnvironment) :
  forall (n fuel : nat) (i : Z) (st : SupervisorState),
    Z.to_nat (VMWatchMaxProcessAttempts + 1 - i) = n ->
    (n < fuel)%nat ->
    (forall j, i <= j <= VMWatchMaxProcessAttempts -> attemptEnds (os j) = true) ->
    vmWatchErr st = last (recorded st) ->
    exists st',
      retryLoop fuel os s h i st = Finished st'
      /\ length (recorded st') = (length (recorded st) + n)%nat
      /\ attempts (trace st') = (attempts (trace st) + n)%nat
      /\ sent (trace st') = sent (trace st)
      /\ vmWatchErr st' = last (recorded st').
Proof.
  induction n as [|n IH]; intros fuel i st Hn Hfuel Hends Hlast;
    (destruct fuel as [|fuel]; [lia|]); cbn [retryLoop].
  - destruct (Z.leb_spec i VMWatchMaxProcessAttempts) as [Hle|Hgt]; [lia|].
    exists st. rewrite !Nat.add_0_r. auto.
  - destruct (Z.leb_spec i VMWatchMaxProcessAttempts) as [Hle|Hgt]; [|lia].
    destruct (attempt_ends (os i) s h i st) as (st1 & err & -> & Hrec & Herr & Hatt & Hsent).
    { apply Hends; lia. }
    destruct (IH fuel (i + 1) st1) as (st' & Hrun & Hlen & Hcount & Hsent' & Hlast').
    + lia.
    + lia.
    + intros j Hj. apply Hends; lia.
    + rewrite Herr, Hrec. symmetry. apply last_snoc.
    + exists st'. rewrite Hrun, Hlen, Hcount, Hsent', Hrec, Hatt, Hsent, length_app.
      cbn [length]. repeat split; try lia. exact Hlast'.
Qed.

(** C1. When every attempt comes to an end, in whichever of the three
    ways, [executeVMWatch] returns after exactly
    [VMWatchMaxProcessAttempts] attempts, each of which recorded one
    error; the last thing it does is to send one [VMWatchResult] with
    status [Failed] and the most recently recorded error, and it sends
    nothing before that. *)
Theorem executeVMWatch_retry_bound (os : Z -> AttemptEnv) (s : vmWatchSettings)
  (h : HandlerEnvironment) (fuel : nat) :
  0 <= VMWatchMaxProcessAttempts ->
  (Z.to_nat VMWatchMaxProcessAttempts < fuel)%nat ->
  (forall i, 1 <= i <= VMWatchMaxProcessAttempts -> attemptEnds (os i) = true) ->
  exists st pre,
    executeVMWatch fuel os s h = Finished st
    /\ Z.of_nat (attempts (trace st)) = VMWatchMaxProcessAttempts
    /\ Z.of_nat (length (recorded st)) = VMWatchMaxProcessAttempts
    /\ trace st = pre ++ [Send {| Status := Failed; Error := last (recorded st) |}]
    /\ sent pre = []
    /\ sent (trace st) = [{| Status := Failed; Error := last (recorded st) |}].
Proof.
  intros Hpos Hfuel Hends. unfold executeVMWatch.
  destruct (retryLoop_finishes os s h (Z.to_nat VMWatchMaxProcessAttempts) fuel 1
              initialState)
    as (st & -> & Hlen & Hcount & Hsent & Hlast); auto.
  { f_equal. lia. }
  unfold initialState in Hlen, Hcount, Hsent.
  cbn [recorded trace length] in Hlen, Hcount, Hsent.
  change (attempts []) with 0%nat in Hcount.
  change (sent []) with (@nil VMWatchResult) in Hsent.
  eexists _, _. split; [reflexivity|].
  unfold signalFailed, emit. cbn [trace recorded vmWatchErr].
  rewrite Hlast.
  split; [|split; [|split; [reflexivity|]]].
  - rewrite !attempts_snoc, Hcount. cbn [is_SetupCommand]. lia.
  - lia.
  - rewrite !sent_snoc, Hsent. split; reflexivity.
Qed.

(** A setup failure is recorded with whatever [pid] holds at that
    moment, leaves [pid] as it is, and the loop goes on. *)
Lemma attempt_setup_failure (e : AttemptEnv) (s : vmWatchSettings)
  (h : HandlerEnvironment) (i : Z) (st : SupervisorState) (err : error) :
  filepath_Abs e os_Args0 = inr err ->
  exists st',
    attempt e s h i st = Some st'
    /\ vmWatchErr st' = Some (wrapError (errPrefix (now e) (pid st) (Some err)) err)
    /\ pid st' = pid st.
Proof.
  intros Habs. unfold attempt, setupVMWatchCommand, GetProcessDirectory.
  rewrite Habs. eexists. split; [reflexivity|]. split; reflexivity.
Qed.

(** *** The environment of the watcher process *)

Lemma fold_left_append (l : list (string * Value)) (acc : list string) :
  fold_left (fun arr kv => arr ++ [fst kv +:+ "=" +:+ verb_s (snd kv)]) l acc
  = acc ++ (overrideEntry <$> l).
Proof.
  revert acc. induction l as [|kv l IH]; intros acc; cbn [fold_left fmap list_fmap].
  - by rewrite app_nil_r.
  - rewrite IH, <- app_assoc. reflexivity.
Qed.

(** C9. Whatever the overrides and the order in which [range] visits
    them (each entry once), the result is one [KEY=VALUE] entry per
    override followed by the [SIGNAL_FOLDER] entry and then the
    [VERBOSE_LOG_FILE_FULL_PATH] entry: its length is the number of
    overrides plus two. *)
Theorem GetVMWatchEnvironmentVariables_shape
  (range : gmap string Value -> list (string * Value))
  (parameterOverrides : gmap string Value) (h : HandlerEnvironment) :
  range parameterOverrides ≡ₚ map_to_list parameterOverrides ->
  exists overrides,
    GetVMWatchEnvironmentVariables range parameterOverrides h
    = overrides
      ++ ["SIGNAL_FOLDER=" +:+ HandlerEnvironmentEventsFolderPath;
          "VERBOSE_LOG_FILE_FULL_PATH="
          +:+ filepath_Join [LogFolder h; VMWatchVerboseLogFileName]]
    /\ overrides ≡ₚ overrideEntry <$> map_to_list parameterOverrides
    /\ length overrides = size parameterOverrides
    /\ length (GetVMWatchEnvironmentVariables range parameterOverrides h)
       = (size parameterOverrides + 2)%nat.
Proof.
  intros Hrange. exists (overrideEntry <$> range parameterOverrides).
  unfold GetVMWatchEnvironmentVariables. rewrite fold_left_append.
  cbn [app]. rewrite <- app_assoc. cbn [app].
  assert (Hlen : length (overrideEntry <$> range parameterOverrides)
                 = size parameterOverrides).
  { rewrite length_fmap, Hrange. apply length_map_to_list. }
  split; [reflexivity|]. split; [by rewrite Hrange|]. split; [exact Hlen|].
  rewrite length_app, Hlen. reflexivity.
Qed.

(** *** Further properties of one attempt *)

Local Ltac attempt_state :=
  cbn [trace recorded vmWatchErr pid combinedOutput emit set_vmWatchErr set_pid
       set_combinedOutput Cmd_Process set_Process startErr startProcess startOutput
       String.append].

Lemma append_assoc (a b c : string) : (a +:+ b) +:+ c = a +:+ (b +:+ c).
Proof.
  induction a as [|x a IH]; [reflexivity|].
  change (String x ((a +:+ b) +:+ c) = String x (a +:+ (b +:+ c))). by rewrite IH.
Qed.

(** An attempt that does not end never gives a next state. *)
Lemma attempt_blocks (e : AttemptEnv) (s : vmWatchSettings) (h : HandlerEnvironment)
  (i : Z) (st : SupervisorState) :
  attemptEnds e = false -> attempt e s h i st = None.
Proof.
  unfold attemptEnds, attempt, setupVMWatchCommand, GetProcessDirectory.
  destruct (filepath_Abs e os_Args0) as [dir|err0]; [|discriminate].
  destruct (startErr (cmd_Start e)); [discriminate|].
  destruct (cmd_Wait e); [discriminate|]. reflexivity.
Qed.

(** After a setup that succeeded, [pid], [combinedOutput] and the recorded
    error are those of this attempt alone. *)
Lemma attempt_after_setup (e : AttemptEnv) (s : vmWatchSettings)
  (h : HandlerEnvironment) (i : Z) (st st' : SupervisorState) (p : string) :
  filepath_Abs e os_Args0 = inl p ->
  attempt e s h i st = Some st' ->
  pid st' = attemptPid e
  /\ combinedOutput st' = attemptOutput e
  /\ vmWatchErr st'
     = Some (Fmt.Errorf_w
               (errWithOutput (now e) (attemptPid e) (attemptCause e) (attemptOutput e))
               (attemptCause e)).
Proof.
  intros Habs.
  unfold attempt, setupVMWatchCommand, GetProcessDirectory, attemptPid, attemptOutput,
    attemptCause.
  rewrite Habs. cbn zeta.
  destruct (cmd_Start e) as [[proc|] [err1|] sout]; attempt_state;
    try (destruct (cmd_Wait e) as [werr wout|]; [|discriminate]);
    intros [= <-]; attempt_state; repeat split; reflexivity.
Qed.

(** X4. no state of earlier attempts leaks into an attempt whose setup
    succeeds: run from any two states, it ends in the same [pid], the
    same [combinedOutput] and the same recorded error. *)
Theorem attempt_fresh_after_setup (e : AttemptEnv) (s : vmWatchSettings)
  (h : HandlerEnvironment) (i : Z) (st1 st2 st1' : SupervisorState) (p : string) :
  filepath_Abs e os_Args0 = inl p ->
  attempt e s h i st1 = Some st1' ->
  exists st2',
    attempt e s h i st2 = Some st2'
    /\ pid st2' = pid st1'
    /\ combinedOutput st2' = combinedOutput st1'
    /\ vmWatchErr st2' = vmWatchErr st1'.
Proof.
  intros Habs Hrun1.
  destruct (attempt e s h i st2) as [st2'|] eqn:Hrun2.
  - exists st2'. split; [reflexivity|].
    destruct (attempt_after_setup e s h i st1 st1' p Habs Hrun1) as (-> & -> & ->).
    destruct (attempt_after_setup e s h i st2 st2' p Habs Hrun2) as (-> & -> & ->).
    repeat split; reflexivity.
  - assert (Hends : attemptEnds e = true).
    { destruct (attemptEnds e) eqn:Hends; [reflexivity|].
      rewrite (attempt_blocks e s h i st1 Hends) in Hrun1. discriminate. }
    destruct (attempt_ends e s h i st2 Hends) as (st2' & err & Hrun & _).
    rewrite Hrun in Hrun2. discriminate.
Qed.

(** X7. a watcher that exits with status 0 ([cmd.Wait()] returns nil) is
    recorded as a failure all the same: the error is not nil, wraps
    nothing, and prints the nil operand as [%!w(<nil>)]. *)
Theorem attempt_clean_exit_is_an_error (e : AttemptEnv) (s : vmWatchSettings)
  (h : HandlerEnvironment) (i : Z) (st : SupervisorState) (p output : string) :
  filepath_Abs e os_Args0 = inl p ->
  startErr (cmd_Start e) = None ->
  cmd_Wait e = WaitReturns None output ->
  exists st' err,
    attempt e s h i st = Some st'
    /\ vmWatchErr st' = Some err
    /\ Errors.Unwrap err = None
    /\ Errors.Error err
       = "[" +:+ now e +:+ "][PID " +:+ Strconv.Itoa (attemptPid e)
         +:+ "] Err: %!w(<nil>)" +:+ newline +:+ "Output: "
         +:+ startOutput (cmd_Start e) +:+ output.
Proof.
  intros Habs Hstart Hwait.
  assert (Hends : attemptEnds e = true).
  { unfold attemptEnds. by rewrite Habs, Hstart, Hwait. }
  destruct (attempt_ends e s h i st Hends) as (st' & err & Hrun & _ & Herr & _).
  exists st', err. split; [exact Hrun|]. split; [exact Herr|].
  destruct (attempt_after_setup e s h i st st' p Habs Hrun) as (_ & _ & Herr').
  rewrite Herr in Herr'. injection Herr' as ->.
  unfold attemptCause, attemptOutput. rewrite Hstart, Hwait.
  cbn [Fmt.Errorf_w Errors.Unwrap Errors.Error]. split; [reflexivity|].
  unfold errWithOutput, errPrefix. cbn [Fmt.verb_w].
  rewrite !append_assoc. reflexivity.
Qed.

(** *** Further properties of the whole run *)

(** A run of the loop that finishes ends with the last attempt: its final
    state is the one attempt [VMWatchMaxProcessAttempts] produced. *)
Lemma retryLoop_last (os : Z -> AttemptEnv) (s : vmWatchSettings)
  (h : HandlerEnvironment) :
  forall (n fuel : nat) (i : Z) (st : SupervisorState),
    Z.to_nat (VMWatchMaxProcessAttempts - i) = n ->
    i <= VMWatchMaxProcessAttempts ->
    (S n < fuel)%nat ->
    (forall j, i <= j <= VMWatchMaxProcessAttempts -> attemptEnds (os j) = true) ->
    exists stPrev st',
      retryLoop fuel os s h i st = Finished st'
      /\ attempt (os VMWatchMaxProcessAttempts) s h VMWatchMaxProcessAttempts stPrev
         = Some st'
      /\ sent (trace st') = sent (trace st).
Proof.
  induction n as [|n IH]; intros fuel i st Hn Hle Hfuel Hends;
    (destruct fuel as [|fuel]; [lia|]); cbn [retryLoop];
    (destruct (Z.leb_spec i VMWatchMaxProcessAttempts) as [_|Hgt]; [|lia]);
    destruct (attempt_ends (os i) s h i st) as (st1 & err & Hrun & _ & _ & _ & Hsent);
    try (apply Hends; lia); rewrite Hrun.
  - assert (i = VMWatchMaxProcessAttempts) as -> by lia.
    destruct fuel as [|fuel]; [lia|]. cbn [retryLoop].
    destruct (Z.leb_spec (VMWatchMaxProcessAttempts + 1) VMWatchMaxProcessAttempts);
      [lia|].
    exists st, st1. auto.
  - destruct (IH fuel (i + 1) st1) as (stPrev & st' & Hloop & Hlast & Hsent');
      [lia | lia | lia | intros j Hj; apply Hends; lia |].
    exists stPrev, st'. rewrite Hsent', Hsent. auto.
Qed.

(** X5. when the setup of the last attempt succeeds, the error of the
    result that is sent is made of that attempt alone: its time, its
    process id (or -1), its error and its output. Nothing of the earlier
    attempts is in it. *)
Theorem executeVMWatch_result_from_last_attempt (os : Z -> AttemptEnv)
  (s : vmWatchSettings) (h : HandlerEnvironment) (fuel : nat) (p : string) :
  1 <= VMWatchMaxProcessAttempts ->
  (Z.to_nat VMWatchMaxProcessAttempts < fuel)%nat ->
  (forall i, 1 <= i <= VMWatchMaxProcessAttempts -> attemptEnds (os i) = true) ->
  filepath_Abs (os VMWatchMaxProcessAttempts) os_Args0 = inl p ->
  let last := os VMWatchMaxProcessAttempts in
  exists st,
    executeVMWatch fuel os s h = Finished st
    /\ sent (trace st)
       = [{| Status := Failed;
             Error := Some (Fmt.Errorf_w
                              (errWithOutput (now last) (attemptPid last)
                                 (attemptCause last) (attemptOutput last))
                              (attemptCause last)) |}].
Proof.
  intros Hpos Hfuel Hends Habs. cbn zeta. unfold executeVMWatch.
  destruct (retryLoop_last os s h (Z.to_nat (VMWatchMaxProcessAttempts - 1)) fuel 1
              initialState)
    as (stPrev & st' & -> & Hlast & Hsent); [reflexivity | lia | lia | exact Hends |].
  destruct (attempt_after_setup _ s h _ stPrev st' p Habs Hlast) as (_ & _ & Herr).
  eexists. split; [reflexivity|].
  unfold signalFailed, emit. cbn [trace vmWatchErr].
  rewrite !sent_snoc, Hsent, Herr. reflexivity.
Qed.

(** The loop blocks at the first attempt that does not end. *)
Lemma retryLoop_blocks (os : Z -> AttemptEnv) (s : vmWatchSettings)
  (h : HandlerEnvironment) (k : Z) :
  k <= VMWatchMaxProcessAttempts ->
  attemptEnds (os k) = false ->
  forall (n fuel : nat) (i : Z) (st : SupervisorState),
    Z.to_nat (k - i) = n ->
    i <= k ->
    (n < fuel)%nat ->
    (forall j, i <= j < k -> attemptEnds (os j) = true) ->
    retryLoop fuel os s h i st = BlockedForever.
Proof.
  intros Hk Hblock.
  induction n as [|n IH]; intros fuel i st Hn Hle Hfuel Hends;
    (destruct fuel as [|fuel]; [lia|]); cbn [retryLoop];
    (destruct (Z.leb_spec i VMWatchMaxProcessAttempts) as [_|Hgt]; [|lia]).
  - assert (i = k) as -> by lia. by rewrite attempt_blocks.
  - destruct (attempt_ends (os i) s h i st) as (st1 & err & -> & _);
      [apply Hends; lia|].
    apply IH; [lia | lia | lia | intros j Hj; apply Hends; lia].
Qed.

(** X8. if some attempt reaches a [cmd.Wait()] that never returns, and all
    attempts before it ended, [executeVMWatch] never returns: no result is
    sent and no later attempt is made. *)
Theorem executeVMWatch_blocks_at_running_watcher (os : Z -> AttemptEnv)
  (s : vmWatchSettings) (h : HandlerEnvironment) (fuel : nat) (k : Z) :
  1 <= k <= VMWatchMaxProcessAttempts ->
  (Z.to_nat VMWatchMaxProcessAttempts < fuel)%nat ->
  (forall i, 1 <= i < k -> attemptEnds (os i) = true) ->
  attemptEnds (os k) = false ->
  executeVMWatch fuel os s h = BlockedForever.
Proof.
  intros Hk Hfuel Hends Hblock. unfold executeVMWatch.
  rewrite (retryLoop_blocks os s h k) with (n := Z.to_nat (k - 1));
    [reflexivity | lia | exact Hblock | reflexivity | lia | lia | exact Hends].
Qed.

(** An attempt that gives a next state has ended. *)
Lemma attempt_Some_ends (e : AttemptEnv) (s : vmWatchSettings) (h : HandlerEnvironment)
  (i : Z) (st st' : SupervisorState) :
  attempt e s h i st = Some st' -> attemptEnds e = true.
Proof.
  intros Hrun. destruct (attemptEnds e) eqn:Hends; [reflexivity|].
  rewrite (attempt_blocks e s h i st Hends) in Hrun. discriminate.
Qed.

(** Whatever the attempts do, a loop that finishes has sent nothing and
    keeps the last recorded error in [vmWatchErr]. *)
Lemma retryLoop_Finished_inv (os : Z -> AttemptEnv) (s : vmWatchSettings)
  (h : HandlerEnvironment) :
  forall (fuel : nat) (i : Z) (st st' : SupervisorState),
    retryLoop fuel os s h i st = Finished st' ->
    vmWatchErr st = last (recorded st) ->
    sent (trace st') = sent (trace st)
    /\ vmWatchErr st' = last (recorded st').
Proof.
  induction fuel as [|fuel IH]; intros i st st'; cbn [retryLoop]; [discriminate|].
  destruct (i <=? VMWatchMaxProcessAttempts); [|by intros [= <-]].
  destruct (attempt (os i) s h i st) as [st1|] eqn:Hrun; [|discriminate].
  intros Hloop Hlast.
  destruct (attempt_ends (os i) s h i st (attempt_Some_ends _ _ _ _ _ _ Hrun))
    as (st1' & err & Hrun' & Hrec & Herr & _ & Hsent).
  rewrite Hrun in Hrun'. injection Hrun' as <-.
  destruct (IH (i + 1) st1 st' Hloop) as [Hsent' Hlast'].
  - rewrite Herr, Hrec. symmetry. apply last_snoc.
  - split; [by rewrite Hsent', Hsent | exact Hlast'].
Qed.

(** X9. whenever [executeVMWatch] returns, in whatever way the attempts went,
    the very last thing it did was to send a result, that is the only
    result it sent, its status is [Failed], which maps to the status type
    [StatusError], and its message is ["VMWatch failed: "] followed by the
    last recorded error. *)
Theorem executeVMWatch_returns_one_failure (StatusType : Type)
  (StatusWarning StatusError StatusSuccess : StatusType)
  (os : Z -> AttemptEnv) (s : vmWatchSettings) (h : HandlerEnvironment)
  (fuel : nat) (st : SupervisorState) :
  executeVMWatch fuel os s h = Finished st ->
  exists r,
    last (trace st) = Some (Send r)
    /\ sent (trace st) = [r]
    /\ Status r = Failed
    /\ Error r = last (recorded st)
    /\ VMWatchStatus_GetStatusType StatusType StatusWarning StatusError StatusSuccess
         (Status r) = StatusError
    /\ GetMessage r = "VMWatch failed: " +:+ verb_v_error (last (recorded st)).
Proof.
  unfold executeVMWatch.
  destruct (retryLoop fuel os s h 1 initialState) as [st0| |] eqn:Hloop;
    [|discriminate..].
  intros [= <-].
  destruct (retryLoop_Finished_inv os s h fuel 1 initialState st0 Hloop)
    as [Hsent Hlast]; [reflexivity|].
  exists {| Status := Failed; Error := last (recorded st0) |}.
  unfold signalFailed, emit. cbn [trace recorded vmWatchErr Status Error].
  rewrite Hlast. split; [apply last_snoc|].
  rewrite !sent_snoc, Hsent. repeat split; reflexivity.
Qed.

(** X6. with a maximum of zero (or less) the loop body never runs: no
    attempt is made, and the one result that is sent is [Failed] with a nil
    error, whose message is ["VMWatch failed: <nil>"]. *)
Theorem executeVMWatch_without_attempts (os : Z -> AttemptEnv) (s : vmWatchSettings)
  (h : HandlerEnvironment) (fuel : nat) :
  VMWatchMaxProcessAttempts <= 0 ->
  exists st,
    executeVMWatch (S fuel) os s h = Finished st
    /\ attempts (trace st) = 0%nat
    /\ recorded st = []
    /\ sent (trace st) = [{| Status := Failed; Error := None |}]
    /\ (GetMessage <$> sent (trace st)) = ["VMWatch failed: <nil>"].
Proof.
  intros Hzero. unfold executeVMWatch. cbn [retryLoop].
  destruct (Z.leb_spec 1 VMWatchMaxProcessAttempts); [lia|].
  eexists. split; [reflexivity|].
  unfold signalFailed, emit, initialState. cbn [trace recorded vmWatchErr].
  rewrite !attempts_snoc, !sent_snoc. repeat split; reflexivity.
Qed.

(** *** Properties of the command that is set up *)

Lemma prefix_iff (a s : string) :
  String.prefix a s = true <-> exists post, s = a +:+ post.
Proof.
  revert s. induction a as [|x a IH]; intros s.
  - split; [intros _; by exists s | intros _; by destruct s].
  - destruct s as [|y s]; cbn [String.prefix].
    + split; [discriminate | intros [post Hpost]; discriminate].
    + destruct (ascii_dec x y) as [<-|Hne].
      * rewrite IH. split; intros [post Hpost]; exists post.
        -- by rewrite Hpost.
        -- by injection Hpost.
      * split; [discriminate|]. intros [post Hpost]. injection Hpost as <- _. done.
Qed.

Lemma Contains_iff (s substr : string) :
  GoStrings.Contains s substr = true
  <-> exists pre post, s = pre +:+ substr +:+ post.
Proof.
  induction s as [|y s IH]; cbn [GoStrings.Contains]; rewrite orb_true_iff, prefix_iff.
  - split.
    + intros [[post Hpost]|]; [|discriminate]. by exists EmptyString, post.
    + intros (pre & post & Heq). left.
      destruct pre; [by exists post|discriminate].
  - rewrite IH. split.
    + intros [[post Hpost] | (pre & post & ->)].
      * by exists EmptyString, post.
      * by exists (String y pre), post.
    + intros (pre & post & Heq). destruct pre as [|x pre].
      * left. by exists post.
      * right. injection Heq as <- ->. by exists pre, post.
Qed.

(** X2. the ARM64 watcher binary is chosen exactly when the ARM64 name of
    the extension occurs somewhere in [os.Args[0]]; in every other case,
    an empty [os.Args[0]] included, it is the AMD64 binary. The file is
    looked up in the [VMWatch] directory beside the executable. *)
Theorem GetVMWatchBinaryFullPath_architecture (processDirectory : string) :
  ((exists pre post, os_Args0 = pre +:+ AppHealthBinaryNameArm64 +:+ post) ->
   GetVMWatchBinaryFullPath processDirectory
   = filepath_Join [processDirectory; "VMWatch"; VMWatchBinaryNameArm64])
  /\ (~ (exists pre post, os_Args0 = pre +:+ AppHealthBinaryNameArm64 +:+ post) ->
      GetVMWatchBinaryFullPath processDirectory
      = filepath_Join [processDirectory; "VMWatch"; VMWatchBinaryNameAmd64]).
Proof.
  unfold GetVMWatchBinaryFullPath.
  destruct (GoStrings.Contains os_Args0 AppHealthBinaryNameArm64) eqn:Hc.
  - split; [reflexivity|]. intros Hno. destruct Hno. by apply Contains_iff.
  - split; [|reflexivity]. intros Hyes. apply Contains_iff in Hyes. congruence.
Qed.

(** X1. [setupVMWatchCommand] fails exactly when [filepath.Abs] does, with
    the same error. Otherwise the command runs the watcher binary of the
    executable's directory with the four arguments [--config <config
    path> --input-filter <filter>], where the filter is the tests joined
    by colons, or the default tests when none are configured; no process
    is attached yet, and the environment is the one of
    [GetVMWatchEnvironmentVariables]. *)
Theorem setupVMWatchCommand_result (e : AttemptEnv) (s : vmWatchSettings)
  (h : HandlerEnvironment) :
  (forall err, filepath_Abs e os_Args0 = inr err ->
     setupVMWatchCommand e s h = inr err)
  /\ (forall p, filepath_Abs e os_Args0 = inl p ->
      exists cmd,
        setupVMWatchCommand e s h = inl cmd
        /\ Path cmd = GetVMWatchBinaryFullPath (filepath_Dir p)
        /\ Args cmd
           = [GetVMWatchBinaryFullPath (filepath_Dir p); "--config";
              GetVMWatchConfigFullPath (filepath_Dir p); "--input-filter";
              match Tests s with
              | [] => VMWatchDefaultTests
              | _ :: _ => GoStrings.Join (Tests s) ":"
              end]
        /\ Cmd_Process cmd = None
        /\ Env cmd
           = GetVMWatchEnvironmentVariables (range_order e) (ParameterOverrides s) h).
Proof.
  unfold setupVMWatchCommand, GetProcessDirectory. split.
  - intros err ->. reflexivity.
  - intros p ->. eexists. split; [reflexivity|].
    destruct (Tests s) as [|t ts]; cbn; repeat split; reflexivity.
Qed.


End Supervisor.

(** ** Properties of the supervisor on concrete runs *)

(** C1, on a run: three attempts whose process exits at once. *)
Lemma executeVMWatch_retry_bound_witness :
  exists st pre,
    executeVMWatch 3 "vmwatch.conf" "vmwatch_linux_amd64" "vmwatch_linux_arm64"
      "applicationhealth-extension-arm64" "disk_io:clockskew" "/var/lib/waagent/events"
      "vmwatch.log" "bin/applicationhealth-extension" Ex.Dir Ex.Join
      4 Ex.alwaysExits Ex.settings Ex.handlerEnv = Finished st
    /\ Z.of_nat (attempts (trace st)) = 3
    /\ Z.of_nat (length (recorded st)) = 3
    /\ trace st = pre ++ [Send {| Status := Failed; Error := last (recorded st) |}]
    /\ sent pre = []
    /\ sent (trace st) = [{| Status := Failed; Error := last (recorded st) |}].
Proof.
  apply (executeVMWatch_retry_bound 3).
  - lia.
  - cbn. lia.
  - intros i Hi. reflexivity.
Defined.

(** A watcher that keeps running: [cmd.Wait()] never returns, and neither
    does [executeVMWatch]; nothing is sent. *)
Example executeVMWatch_blocks_while_watcher_runs :
  executeVMWatch 3 "vmwatch.conf" "vmwatch_linux_amd64" "vmwatch_linux_arm64"
    "applicationhealth-extension-arm64" "disk_io:clockskew" "/var/lib/waagent/events"
    "vmwatch.log" "bin/applicationhealth-extension" Ex.Dir Ex.Join
    4 (fun _ => Ex.keepsRunning 4242 "2024-05-01T10:00:00Z") Ex.settings Ex.handlerEnv
  = BlockedForever.
Proof. vm_compute. reflexivity. Qed.

(** C6, at the failing run. Attempt 1 starts process 4242, which exits;
    in attempt 2 [setupVMWatchCommand] fails. The loop does go on to
    attempt 3, but the error recorded for attempt 2 carries [PID 4242],
    the process of attempt 1, not the marker [PID -1]. *)
Theorem executeVMWatch_setup_failure_keeps_earlier_pid :
  exists st e1 e2 e3,
    executeVMWatch 3 "vmwatch.conf" "vmwatch_linux_amd64" "vmwatch_linux_arm64"
      "applicationhealth-extension-arm64" "disk_io:clockskew" "/var/lib/waagent/events"
      "vmwatch.log" "bin/applicationhealth-extension" Ex.Dir Ex.Join
      4 Ex.startThenSetupFails Ex.settings Ex.handlerEnv = Finished st
    /\ recorded st = [e1; e2; e3]
    /\ attempts (trace st) = 3%nat
    /\ Errors.Error e2
       = "[2024-05-01T10:00:05Z][PID 4242] Err: getwd: no such file or directory"
    /\ Errors.Error e2
       <> "[2024-05-01T10:00:05Z][PID -1] Err: getwd: no such file or directory".
Proof.
  eexists _, _, _, _. split; [vm_compute; reflexivity|].
  split; [reflexivity|]. split; [reflexivity|]. split; [reflexivity|].
  discriminate.
Qed.

(** When the setup fails before any process was started, the marker is
    [PID -1]. *)
Example executeVMWatch_first_setup_failure_has_no_pid :
  exists st',
    attempt "vmwatch.conf" "vmwatch_linux_amd64" "vmwatch_linux_arm64"
      "applicationhealth-extension-arm64" "disk_io:clockskew"
      "/var/lib/waagent/events" "vmwatch.log" "bin/applicationhealth-extension"
      Ex.Dir Ex.Join
      (Ex.setupFails "2024-05-01T10:00:05Z") Ex.settings Ex.handlerEnv 1 initialState
    = Some st'
    /\ (Errors.Error <$> vmWatchErr st')
       = Some "[2024-05-01T10:00:05Z][PID -1] Err: getwd: no such file or directory".
Proof. eexists. split; vm_compute; reflexivity. Qed.

(** C9, on the settings of the examples. *)
Lemma GetVMWatchEnvironmentVariables_shape_witness :
  exists overrides,
    GetVMWatchEnvironmentVariables "/var/lib/waagent/events" "vmwatch.log" Ex.Join
      map_to_list (ParameterOverrides Ex.settings) Ex.handlerEnv
    = overrides
      ++ ["SIGNAL_FOLDER=" +:+ "/var/lib/waagent/events";
          "VERBOSE_LOG_FILE_FULL_PATH="
          +:+ Ex.Join [LogFolder Ex.handlerEnv; "vmwatch.log"]]
    /\ overrides ≡ₚ overrideEntry <$> map_to_list (ParameterOverrides Ex.settings)
    /\ length overrides = size (ParameterOverrides Ex.settings)
    /\ length (GetVMWatchEnvironmentVariables "/var/lib/waagent/events" "vmwatch.log"
                 Ex.Join map_to_list (ParameterOverrides Ex.settings) Ex.handlerEnv)
       = (size (ParameterOverrides Ex.settings) + 2)%nat.
Proof.
  apply (GetVMWatchEnvironmentVariables_shape "/var/lib/waagent/events" "vmwatch.log"
           Ex.Join map_to_list (ParameterOverrides Ex.settings) Ex.handlerEnv).
  reflexivity.
Defined.

Example GetVMWatchEnvironmentVariables_example :
  GetVMWatchEnvironmentVariables "/var/lib/waagent/events" "vmwatch.log" Ex.Join
    map_to_list (ParameterOverrides Ex.settings) Ex.handlerEnv
  = ["ABC=abc"; "SIGNAL_FOLDER=/var/lib/waagent/events";
     "VERBOSE_LOG_FILE_FULL_PATH=/var/log/azure/vmwatch.log"].
Proof. vm_compute. reflexivity. Qed.

(** ** Properties of [killVMWatch] *)

(** C8. With a nil command, or a command whose [Process] is nil,
    [killVMWatch] kills nothing and returns nil; with a process it calls
    [Kill] on it once and returns what [Kill] returned, so an error exactly
    when [Kill] failed. *)
Theorem killVMWatch_cases (kill : Process -> option error) (cmd : option Cmd) :
  ((cmd = None \/ exists c, cmd = Some c /\ Cmd_Process c = None) ->
   snd (killVMWatch kill cmd) = None
   /\ List.filter is_Kill (fst (killVMWatch kill cmd)) = [])
  /\ (forall c p, cmd = Some c -> Cmd_Process c = Some p ->
      snd (killVMWatch kill cmd) = kill p
      /\ (is_Some (snd (killVMWatch kill cmd)) <-> is_Some (kill p))
      /\ List.filter is_Kill (fst (killVMWatch kill cmd)) = [Kill p]).
Proof.
  split.
  - intros [-> | (c & -> & Hproc)]; unfold killVMWatch.
    + split; reflexivity.
    + rewrite Hproc. split; reflexivity.
  - intros c p -> Hproc. unfold killVMWatch. rewrite Hproc.
    destruct (kill p) as [err|]; cbn; repeat split; auto.
Qed.

(** C8, on a command that was never started and on a running one. *)
Lemma killVMWatch_cases_witness :
  snd (killVMWatch (fun _ => Some (Errors.New "os: process already finished"))
         (Some (exec_Command "vmwatch" []))) = None
  /\ snd (killVMWatch (fun _ => Some (Errors.New "os: process already finished"))
            (Some (set_Process (exec_Command "vmwatch" []) (Some {| Pid := 4242 |}))))
     = Some (Errors.New "os: process already finished").
Proof.
  split.
  - apply (killVMWatch_cases (fun _ => Some (Errors.New "os: process already finished"))
             (Some (exec_Command "vmwatch" []))).
    right. eexists. split; reflexivity.
  - destruct (killVMWatch_cases
                (fun _ => Some (Errors.New "os: process already finished"))
                (Some (set_Process (exec_Command "vmwatch" []) (Some {| Pid := 4242 |}))))
      as [_ Hrunning].
    apply (Hrunning (set_Process (exec_Command "vmwatch" []) (Some {| Pid := 4242 |}))
             {| Pid := 4242 |}); reflexivity.
Defined.

(** ** Properties of the probes *)

Lemma TrimPrefix_slash (path : string) :
  GoStrings.TrimPrefix path "/" = spec_stripLeadingSlash path.
Proof.
  unfold GoStrings.TrimPrefix, GoStrings.HasPrefix, spec_stripLeadingSlash.
  destruct path as [|c rest]; [reflexivity|].
  cbn [String.prefix String.length GoStrings.slice_from].
  destruct (ascii_dec "/" c) as [<-|Hne].
  - rewrite Ascii.eqb_refl. by destruct rest.
  - destruct (Ascii.eqb_spec c "/") as [->|_]; [done|reflexivity].
Qed.

Lemma not_eqb (a b : string) : a <> b -> String.eqb a b = false.
Proof. intros H. by apply String.eqb_neq. Qed.

Lemma portString_spec (protocol : string) (port : Z) :
  protocol = "http" \/ protocol = "https" ->
  (if String.eqb protocol "http" && negb (port =? 0) && negb (port =? 80)
   then ":" +:+ Strconv.Itoa port
   else if String.eqb protocol "https" && negb (port =? 0) && negb (port =? 443)
        then ":" +:+ Strconv.Itoa port
        else EmptyString)
  = spec_portSuffix protocol port.
Proof.
  unfold spec_portSuffix, defaultPort.
  intros [-> | ->]; cbn [String.eqb Ascii.eqb Bool.eqb andb];
    destruct (port =? 0); cbn [negb andb orb]; try reflexivity;
    by destruct (port =? _).
Qed.

(** C4. For [http] and [https] the address is
    [scheme://localhost[:port]/path]: the port suffix is left out exactly
    when the port is 0 or the scheme's default, and one leading slash of
    the request path is dropped. *)
Theorem NewHttpHealthProbe_address (protocol requestPath : string) (port : Z) :
  protocol = "http" \/ protocol = "https" ->
  Http_Address (NewHttpHealthProbe protocol requestPath port)
  = protocol +:+ "://localhost" +:+ spec_portSuffix protocol port
    +:+ "/" +:+ spec_stripLeadingSlash requestPath
  /\ (spec_portSuffix protocol port = EmptyString
      <-> port = 0 \/ port = defaultPort protocol)
  /\ (spec_portSuffix protocol port <> EmptyString ->
      spec_portSuffix protocol port = ":" +:+ Strconv.Itoa port)
  /\ (forall rest,
        Http_Address (NewHttpHealthProbe protocol ("/" +:+ rest) port)
        = protocol +:+ "://localhost" +:+ spec_portSuffix protocol port
          +:+ "/" +:+ rest)
  /\ ((forall rest, requestPath <> "/" +:+ rest) ->
      Http_Address (NewHttpHealthProbe protocol requestPath port)
      = protocol +:+ "://localhost" +:+ spec_portSuffix protocol port
        +:+ "/" +:+ requestPath)
  /\ Http_Address (NewHttpHealthProbe "http" "/status" 80) = "http://localhost/status"
  /\ Http_Address (NewHttpHealthProbe "https" "healthz" 8443)
     = "https://localhost:8443/healthz".
Proof.
  intros Hproto.
  assert (Haddr : forall path,
             Http_Address (NewHttpHealthProbe protocol path port)
             = protocol +:+ "://localhost" +:+ spec_portSuffix protocol port
               +:+ "/" +:+ spec_stripLeadingSlash path).
  { intros path. unfold NewHttpHealthProbe. cbn [Http_Address].
    by rewrite portString_spec, TrimPrefix_slash. }
  split; [apply Haddr|].
  split.
  { unfold spec_portSuffix.
    destruct (Z.eqb_spec port 0) as [->|H0]; cbn [orb]; [by split; auto|].
    destruct (Z.eqb_spec port (defaultPort protocol)) as [->|Hd]; [by split; auto|].
    split; [discriminate|]. intros [?|?]; congruence. }
  split.
  { unfold spec_portSuffix.
    destruct ((port =? 0) || (port =? defaultPort protocol)); [congruence|reflexivity]. }
  split.
  { intros rest. rewrite Haddr. reflexivity. }
  split.
  { intros Hnoslash. rewrite Haddr. do 4 f_equal.
    unfold spec_stripLeadingSlash. destruct requestPath as [|c rest]; [reflexivity|].
    destruct (Ascii.eqb_spec c "/") as [->|_]; [|reflexivity].
    by destruct (Hnoslash rest). }
  split; reflexivity.
Qed.

(** C4, on [http], port 8080 and a path with a leading slash. *)
Lemma NewHttpHealthProbe_address_witness :
  Http_Address (NewHttpHealthProbe "http" "/health" 8080)
  = "http" +:+ "://localhost" +:+ spec_portSuffix "http" 8080
    +:+ "/" +:+ spec_stripLeadingSlash "/health"
  /\ Http_Address (NewHttpHealthProbe "http" "/health" 8080)
     = "http://localhost:8080/health".
Proof.
  split.
  - apply (NewHttpHealthProbe_address "http" "/health" 8080). left; reflexivity.
  - reflexivity.
Defined.

(** C5. Every protocol other than [tcp], [http] and [https] (the empty,
    absent one included) gives the default probe, and the default probe's
    [evaluate] returns [(Healthy, nil)] without any I/O. *)
Theorem NewHealthProbe_default (cfg : handlerSettings) :
  protocol cfg <> "tcp" -> protocol cfg <> "http" -> protocol cfg <> "https" ->
  snd (NewHealthProbe cfg) = DefaultProbe mkDefaultHealthProbe
  /\ (forall env d, DefaultHealthProbe_evaluate env d = ([], Returns (Healthy, None)))
  /\ (forall env, evaluate env (snd (NewHealthProbe cfg)) = ([], Returns (Healthy, None))).
Proof.
  intros Htcp Hhttp Hhttps. unfold NewHealthProbe.
  rewrite !not_eqb by assumption. cbn. auto.
Qed.

(** C5, with no protocol configured. *)
Lemma NewHealthProbe_default_witness :
  snd (NewHealthProbe {| protocol := EmptyString; port := 0; requestPath := EmptyString |})
  = DefaultProbe mkDefaultHealthProbe
  /\ evaluate Ex.unreachable
       (snd (NewHealthProbe
               {| protocol := EmptyString; port := 0; requestPath := EmptyString |}))
     = ([], Returns (Healthy, None)).
Proof.
  destruct (NewHealthProbe_default
              {| protocol := EmptyString; port := 0; requestPath := EmptyString |})
    as (Hprobe & _ & Heval); [discriminate..|].
  split; [exact Hprobe | apply Heval].
Defined.

(** C7. The status after the grace period is a constant of the variant:
    [Unhealthy] for TCP, [Unknown] for HTTP, and [Unhealthy] for the
    default probe, whose [evaluate] nevertheless only ever returns
    [Healthy]. *)
Theorem healthStatusAfterGracePeriodExpires_constants :
  (forall p, TcpHealthProbe_healthStatusAfterGracePeriodExpires p = Unhealthy)
  /\ (forall p, HttpHealthProbe_healthStatusAfterGracePeriodExpires p = Unknown)
  /\ (forall p, DefaultHealthProbe_healthStatusAfterGracePeriodExpires p = Unhealthy)
  /\ (forall env p, snd (DefaultHealthProbe_evaluate env p) = Returns (Healthy, None))
  /\ (forall env p,
        snd (DefaultHealthProbe_evaluate env p)
        <> Returns (DefaultHealthProbe_healthStatusAfterGracePeriodExpires p, None))
  /\ (forall p, healthStatusAfterGracePeriodExpires p
                = match p with
                  | TcpProbe _ => Unhealthy
                  | HttpProbe _ => Unknown
                  | DefaultProbe _ => Unhealthy
                  end).
Proof.
  split; [reflexivity|]. split; [reflexivity|]. split; [reflexivity|].
  split; [reflexivity|]. split.
  - intros env p. discriminate.
  - intros []; reflexivity.
Qed.

(** C3. A failed dial gives [(Unhealthy, nil)]; a TCP connection gets
    linger 0, is closed, and gives [(Healthy, nil)]; a connection of
    another type gives the error [errUnableToConvertType], "Unable to
    convert type", which tells the result apart from a plain unhealthy
    one. *)
Theorem TcpHealthProbe_evaluate_cases (env : NetEnv) (p : TcpHealthProbe) :
  let addr := TcpHealthProbe_address p in
  let timeout := 30 * Time.Second in
  (forall err, net_DialTimeout env "tcp" addr timeout = inr err ->
     TcpHealthProbe_evaluate env p
     = ([EvDial "tcp" addr timeout], Returns (Unhealthy, None)))
  /\ (forall c, net_DialTimeout env "tcp" addr timeout = inl (TCPConn c) ->
        TcpHealthProbe_evaluate env p
        = ([EvDial "tcp" addr timeout; EvSetLinger c 0; EvConnClose c],
           Returns (Healthy, None)))
  /\ (forall c, net_DialTimeout env "tcp" addr timeout = inl (OtherConn c) ->
        snd (TcpHealthProbe_evaluate env p)
        = Returns (Unhealthy, Some errUnableToConvertType)
        /\ Errors.Error errUnableToConvertType = "Unable to convert type"
        /\ snd (TcpHealthProbe_evaluate env p) <> Returns (Unhealthy, None)).
Proof.
  cbn zeta. unfold TcpHealthProbe_evaluate. split; [|split].
  - intros err ->. reflexivity.
  - intros c ->. reflexivity.
  - intros c ->. split; [reflexivity|]. split; [reflexivity|]. discriminate.
Qed.

(** C3, on a refused connection, an open port and a foreign connection
    type. *)
Lemma TcpHealthProbe_evaluate_cases_witness :
  TcpHealthProbe_evaluate Ex.unreachable {| Tcp_Address := "localhost:8080" |}
  = ([EvDial "tcp" "localhost:8080" (30 * Time.Second)], Returns (Unhealthy, None))
  /\ TcpHealthProbe_evaluate (Ex.endpoint 200 Ex.healthyBody)
       {| Tcp_Address := "localhost:8080" |}
     = ([EvDial "tcp" "localhost:8080" (30 * Time.Second); EvSetLinger 7 0;
         EvConnClose 7],
        Returns (Healthy, None))
  /\ snd (TcpHealthProbe_evaluate Ex.otherConn {| Tcp_Address := "localhost:8080" |})
     = Returns (Unhealthy, Some errUnableToConvertType).
Proof.
  split; [|split].
  - destruct (TcpHealthProbe_evaluate_cases Ex.unreachable
                {| Tcp_Address := "localhost:8080" |}) as (Hfail & _ & _).
    apply (Hfail (Errors.New "connection refused")). reflexivity.
  - destruct (TcpHealthProbe_evaluate_cases (Ex.endpoint 200 Ex.healthyBody)
                {| Tcp_Address := "localhost:8080" |}) as (_ & Hok & _).
    apply (Hok 7%nat). reflexivity.
  - destruct (TcpHealthProbe_evaluate_cases Ex.otherConn
                {| Tcp_Address := "localhost:8080" |}) as (_ & _ & Hother).
    apply (Hother 3%nat). reflexivity.
Defined.

(** C2. For a probe that has its HTTP client: a failure to build the
    request, of the transport, of reading the body, of decoding it or of
    validating it gives [(Unknown, err)] with that error; a status code
    outside [200, 299] gives [(Unknown, nil)]; otherwise the result is the
    health state found in the body, unchanged, with a nil error. *)
Theorem HttpHealthProbe_evaluate_cases (env : NetEnv) (p : HttpHealthProbe)
  (client : Client) :
  HttpClient p = Some client ->
  let result := snd (HttpHealthProbe_evaluate env p) in
  (forall err, http_NewRequest env "GET" (HttpHealthProbe_address p) = inr err ->
     result = Returns (Unknown, Some err))
  /\ (forall req0,
        http_NewRequest env "GET" (HttpHealthProbe_address p) = inl req0 ->
        let req := Header_Set req0 "User-Agent" "ApplicationHealthExtension/1.0" in
        (forall err, client_Do env client req = inr err ->
           result = Returns (Unknown, Some err))
        /\ (forall resp, client_Do env client req = inl resp ->
              (StatusCode resp < 200 \/ 299 < StatusCode resp ->
               result = Returns (Unknown, None))
              /\ (200 <= StatusCode resp <= 299 ->
                  (forall err, Body resp = inr err ->
                     result = Returns (Unknown, Some err))
                  /\ (forall bodyBytes, Body resp = inl bodyBytes ->
                        (forall pr err,
                           json_Unmarshal env bodyBytes = (pr, Some err) ->
                           result = Returns (Unknown, Some err))
                        /\ (forall pr,
                              json_Unmarshal env bodyBytes = (pr, None) ->
                              (forall err, validate env pr = Some err ->
                                 result = Returns (Unknown, Some err))
                              /\ (validate env pr = None ->
                                  result
                                  = Returns (ApplicationHealthState pr, None))))))).
Proof.
  intros Hclient. cbn zeta. unfold HttpHealthProbe_evaluate. rewrite Hclient.
  split.
  - intros err ->. reflexivity.
  - intros req0 ->. split.
    + intros err ->. reflexivity.
    + intros resp ->. split.
      * intros Hout.
        assert ((StatusCode resp <? 200) || (StatusCode resp >? 299) = true) as ->.
        { apply orb_true_iff. rewrite Z.ltb_lt, Z.gtb_lt. lia. }
        reflexivity.
      * intros Hin.
        assert ((StatusCode resp <? 200) || (StatusCode resp >? 299) = false) as ->.
        { apply orb_false_iff. rewrite Z.ltb_ge, Z.gtb_ltb, Z.ltb_ge. lia. }
        split.
        -- intros err ->. reflexivity.
        -- intros bodyBytes ->. split.
           ++ intros pr err ->. reflexivity.
           ++ intros pr ->. split.
              ** intros err ->. reflexivity.
              ** intros ->. reflexivity.
Qed.

(** C2, on an endpoint that answers 200 with a healthy body, and on one
    that answers 503. *)
Lemma HttpHealthProbe_evaluate_cases_witness :
  snd (HttpHealthProbe_evaluate (Ex.endpoint 200 Ex.healthyBody)
         (NewHttpHealthProbe "http" "/health" 8080))
  = Returns (Healthy, None)
  /\ snd (HttpHealthProbe_evaluate (Ex.endpoint 503 Ex.healthyBody)
            (NewHttpHealthProbe "http" "/health" 8080))
     = Returns (Unknown, None).
Proof.
  split.
  - destruct (HttpHealthProbe_evaluate_cases (Ex.endpoint 200 Ex.healthyBody)
                (NewHttpHealthProbe "http" "/health" 8080) _ eq_refl) as [_ Hreq].
    destruct (Hreq _ eq_refl) as [_ Hdo].
    destruct (Hdo _ eq_refl) as [_ Hin].
    destruct Hin as [_ Hbody]; [cbn; lia|].
    destruct (Hbody _ eq_refl) as [_ Hjson].
    destruct (Hjson {| ApplicationHealthState := Healthy |} eq_refl) as [_ Hvalid].
    apply Hvalid. reflexivity.
  - destruct (HttpHealthProbe_evaluate_cases (Ex.endpoint 503 Ex.healthyBody)
                (NewHttpHealthProbe "http" "/health" 8080) _ eq_refl) as [_ Hreq].
    destruct (Hreq _ eq_refl) as [_ Hdo].
    destruct (Hdo _ eq_refl) as [Hout _].
    apply Hout. cbn. lia.
Defined.

(** C10, as it is worded, fails: with no protocol the address is
    [://localhost/health], [http.NewRequest] rejects it ("missing protocol
    scheme"), and [evaluate] returns [(Unknown, err)] before it comes to
    the nil client. *)
Lemma NewHttpHealthProbe_nil_client_not_always_reached :
  ~ (forall env proto path port,
       proto <> "http" -> proto <> "https" ->
       exists msg,
         snd (HttpHealthProbe_evaluate env (NewHttpHealthProbe proto path port))
         = Panics msg).
Proof.
  intros Hall.
  destruct (Hall Ex.unreachable EmptyString "health" 0) as [msg Hmsg];
    [discriminate..|].
  vm_compute in Hmsg. discriminate.
Qed.

(** C10, amended. For a protocol other than [http] and [https] the probe
    has a nil client, and [evaluate] dereferences it whenever
    [http.NewRequest] accepts the address; when the request cannot be
    built, [evaluate] returns [(Unknown, err)] first. [NewHealthProbe]
    calls the constructor with [http] or [https] only, so no probe it
    returns has a nil client and no [evaluate] on one panics. *)
Theorem NewHttpHealthProbe_nil_client (proto path : string) (portNo : Z) :
  proto <> "http" -> proto <> "https" ->
  let p := NewHttpHealthProbe proto path portNo in
  HttpClient p = None
  /\ (forall env, url_Parse env (HttpHealthProbe_address p) = None ->
        HttpHealthProbe_evaluate env p
        = ([], Panics "invalid memory address or nil pointer dereference"))
  /\ (forall env err, url_Parse env (HttpHealthProbe_address p) = Some err ->
        HttpHealthProbe_evaluate env p = ([], Returns (Unknown, Some err)))
  /\ (forall cfg h, snd (NewHealthProbe cfg) = HttpProbe h ->
        (protocol cfg = "http" \/ protocol cfg = "https")
        /\ h = NewHttpHealthProbe (protocol cfg) (requestPath cfg) (port cfg)
        /\ is_Some (HttpClient h))
  /\ (forall cfg env msg, snd (evaluate env (snd (NewHealthProbe cfg))) <> Panics msg).
Proof.
  intros Hhttp Hhttps. cbn zeta.
  assert (Hnil : HttpClient (NewHttpHealthProbe proto path portNo) = None).
  { unfold NewHttpHealthProbe. cbn [HttpClient]. by rewrite !not_eqb. }
  assert (Hfactory : forall cfg h, snd (NewHealthProbe cfg) = HttpProbe h ->
            (protocol cfg = "http" \/ protocol cfg = "https")
            /\ h = NewHttpHealthProbe (protocol cfg) (requestPath cfg) (port cfg)
            /\ is_Some (HttpClient h)).
  { intros cfg h. unfold NewHealthProbe.
    destruct (String.eqb_spec (protocol cfg) "tcp"); [discriminate|].
    destruct (String.eqb_spec (protocol cfg) "http") as [Heq|_]; cbn [orb].
    - intros [= <-]. split; [by left|]. split; [reflexivity|].
      unfold NewHttpHealthProbe. rewrite Heq. cbn. eauto.
    - destruct (String.eqb_spec (protocol cfg) "https") as [Heq|_]; [|discriminate].
      intros [= <-]. split; [by right|]. split; [reflexivity|].
      unfold NewHttpHealthProbe. rewrite Heq. cbn. eauto. }
  split; [exact Hnil|]. split; [|split; [|split; [exact Hfactory|]]].
  - intros env Hparse. unfold HttpHealthProbe_evaluate, http_NewRequest.
    by rewrite Hparse, Hnil.
  - intros env err Hparse. unfold HttpHealthProbe_evaluate, http_NewRequest.
    by rewrite Hparse.
  - intros cfg env msg.
    destruct (snd (NewHealthProbe cfg)) as [t|h|d] eqn:Hprobe; cbn [evaluate].
    + unfold TcpHealthProbe_evaluate.
      destruct (net_DialTimeout _ _ _ _) as [[c|c]|err]; discriminate.
    + destruct (Hfactory cfg h Hprobe) as (_ & _ & [client Hclient]).
      unfold HttpHealthProbe_evaluate. rewrite Hclient.
      destruct (http_NewRequest _ _ _) as [req|err]; [|discriminate].
      destruct (client_Do _ _ _) as [resp|err]; [|discriminate].
      destruct (_ || _); [discriminate|].
      destruct (Body resp) as [b|err]; [|discriminate].
      destruct (json_Unmarshal env b) as [pr [err|]]; [discriminate|].
      destruct (validate env pr); discriminate.
    + discriminate.
Qed.

(** C10 amended, on the protocol [ftp], whose address
    [ftp://localhost/health] is a well-formed URL. *)
Lemma NewHttpHealthProbe_nil_client_witness :
  HttpClient (NewHttpHealthProbe "ftp" "/health" 0) = None
  /\ HttpHealthProbe_evaluate (Ex.endpoint 200 Ex.healthyBody)
       (NewHttpHealthProbe "ftp" "/health" 0)
     = ([], Panics "invalid memory address or nil pointer dereference").
Proof.
  destruct (NewHttpHealthProbe_nil_client "ftp" "/health" 0) as (Hnil & Hpanic & _);
    [discriminate..|].
  split; [exact Hnil|]. apply Hpanic. reflexivity.
Defined.

(** ** Further properties of the probes *)

Lemma Itoa_inj (a b : Z) : Strconv.Itoa a = Strconv.Itoa b -> a = b.
Proof.
  unfold Strconv.Itoa. intros Heq. apply DecimalZ.to_int_inj.
  assert (Hparse : forall z,
             NilZero.int_of_string (NilZero.string_of_int (Z.to_int z))
             = Some (Z.to_int z)).
  { intros z. apply NilZero.isi; destruct z as [|q|q]; cbn; try discriminate;
      intros [= Hnil]; by apply DecimalPos.Unsigned.to_uint_nonnil in Hnil. }
  pose proof (Hparse a) as Ha. rewrite Heq, Hparse in Ha. by injection Ha.
Qed.

(** X10. for the protocol [tcp] the probe targets [localhost:<port>], and
    its [evaluate] begins by dialling exactly that address over [tcp] with
    a timeout of 30 seconds. *)
Theorem NewHealthProbe_tcp_target (cfg : handlerSettings) (env : NetEnv) :
  protocol cfg = "tcp" ->
  address (snd (NewHealthProbe cfg)) = "localhost:" +:+ Strconv.Itoa (port cfg)
  /\ exists rest,
       fst (evaluate env (snd (NewHealthProbe cfg)))
       = EvDial "tcp" ("localhost:" +:+ Strconv.Itoa (port cfg)) 30000000000 :: rest.
Proof.
  intros Hproto. unfold NewHealthProbe. rewrite Hproto. cbn [String.eqb Ascii.eqb Bool.eqb snd].
  split; [reflexivity|].
  cbn [evaluate]. unfold TcpHealthProbe_evaluate.
  destruct (net_DialTimeout _ _ _ _) as [[c|c]|err]; eexists; reflexivity.
Qed.

(** X11. two TCP probes have the same address only if they were configured
    with the same port. *)
Theorem NewHealthProbe_tcp_address_determines_port (cfg1 cfg2 : handlerSettings) :
  protocol cfg1 = "tcp" -> protocol cfg2 = "tcp" ->
  address (snd (NewHealthProbe cfg1)) = address (snd (NewHealthProbe cfg2)) ->
  port cfg1 = port cfg2.
Proof.
  intros H1 H2. unfold NewHealthProbe. rewrite H1, H2.
  cbn [String.eqb Ascii.eqb Bool.eqb snd address TcpHealthProbe_address Tcp_Address].
  intros Heq. apply Itoa_inj. by apply (inj (String.append "localhost:")) in Heq.
Qed.

(** X12. the constructor gives the probe a client exactly for [http] and
    [https]. Every client it builds has a timeout of 30 seconds and the
    redirect policy [noRedirect], which rejects every redirect; certificate
    verification is switched off exactly for [https], and [http] uses the
    default transport. *)
Theorem NewHttpHealthProbe_client (proto path : string) (portNo : Z) :
  let p := NewHttpHealthProbe proto path portNo in
  (is_Some (HttpClient p) <-> proto = "http" \/ proto = "https")
  /\ (forall c, HttpClient p = Some c ->
        Timeout c = 30000000000
        /\ CheckRedirect_noRedirect c = true
        /\ (Client_Transport c = Some {| InsecureSkipVerify := true |}
            <-> proto = "https")
        /\ (Client_Transport c = None <-> proto = "http"))
  /\ (forall req via, noRedirect req via = Some errNoRedirect).
Proof.
  cbn zeta. unfold NewHttpHealthProbe. cbn [HttpClient].
  destruct (String.eqb_spec proto "https") as [->|Hs].
  - split; [split; eauto|]. split; [|reflexivity].
    intros c [= <-]. cbn. repeat split; auto; discriminate.
  - destruct (String.eqb_spec proto "http") as [->|Hh].
    + split; [split; eauto|]. split; [|reflexivity].
      intros c [= <-]. cbn. repeat split; auto; discriminate.
    + split; [|split; [discriminate|reflexivity]].
      split; [intros [c Hc]; discriminate | intros [?|?]; congruence].
Qed.

(** X13. an HTTP probe sends at most one request, and only this one: a
    [GET] of its own address through its own client, with the single
    header [User-Agent: ApplicationHealthExtension/1.0]. *)
Theorem HttpHealthProbe_evaluate_request (env : NetEnv) (p : HttpHealthProbe)
  (client : Client) :
  HttpClient p = Some client ->
  (length (List.filter is_EvDo (fst (HttpHealthProbe_evaluate env p))) <= 1)%nat
  /\ forall c req,
       EvDo c req ∈ fst (HttpHealthProbe_evaluate env p) ->
       c = client
       /\ Method req = "GET"
       /\ URL req = HttpHealthProbe_address p
       /\ Header req = [("User-Agent", "ApplicationHealthExtension/1.0")].
Proof.
  intros Hclient. unfold HttpHealthProbe_evaluate, http_NewRequest. rewrite Hclient.
  destruct (url_Parse env _) as [perr|].
  { split; [cbn; lia|]. intros c req Hin. cbn in Hin. by apply elem_of_nil in Hin. }
  pose (req0 := {| Method := "GET"; URL := HttpHealthProbe_address p;
                   Header := [("User-Agent", "ApplicationHealthExtension/1.0")] |}).
  change (Header_Set {| Method := "GET"; URL := HttpHealthProbe_address p;
                        Header := [] |}
            "User-Agent" "ApplicationHealthExtension/1.0") with req0.
  assert (Hone : forall evs c req,
             EvDo c req ∈ (EvDo client req0 :: evs) ->
             List.filter is_EvDo evs = [] ->
             c = client /\ Method req = "GET" /\ URL req = HttpHealthProbe_address p
             /\ Header req = [("User-Agent", "ApplicationHealthExtension/1.0")]).
  { intros evs c req Hin Hnone. apply elem_of_cons in Hin as [[= -> ->]|Hin].
    - repeat split; reflexivity.
    - exfalso. apply list_elem_of_In in Hin.
      assert (Hf : In (EvDo c req) (List.filter is_EvDo evs))
        by (apply List.filter_In; by split).
      rewrite Hnone in Hf. destruct Hf. }
  destruct (client_Do env client req0) as [resp|derr].
  - destruct (_ || _); [split; [cbn; lia|]; intros c req Hin; by apply (Hone _ c req Hin)|].
    destruct (Body resp) as [b|berr];
      [|split; [cbn; lia|]; intros c req Hin; by apply (Hone _ c req Hin)].
    destruct (json_Unmarshal env b) as [pr [jerr|]];
      [split; [cbn; lia|]; intros c req Hin; by apply (Hone _ c req Hin)|].
    destruct (validate env pr);
      (split; [cbn; lia|]; intros c req Hin; by apply (Hone _ c req Hin)).
  - split; [cbn; lia|]. intros c req Hin. by apply (Hone _ c req Hin).
Qed.

(** X14. the response body is closed exactly once, as the last thing
    [evaluate] does, whenever the transport returned a response, whatever
    happens afterwards (bad status, unreadable body, bad JSON, failed
    validation); when no response was received nothing is closed. *)
Theorem HttpHealthProbe_evaluate_closes_body (env : NetEnv) (p : HttpHealthProbe)
  (client : Client) :
  HttpClient p = Some client ->
  let events := fst (HttpHealthProbe_evaluate env p) in
  (forall req0 resp,
     http_NewRequest env "GET" (HttpHealthProbe_address p) = inl req0 ->
     client_Do env client (Header_Set req0 "User-Agent" "ApplicationHealthExtension/1.0")
     = inl resp ->
     last events = Some EvBodyClose
     /\ length (List.filter is_EvBodyClose events) = 1%nat)
  /\ ((forall req0 resp,
         http_NewRequest env "GET" (HttpHealthProbe_address p) = inl req0 ->
         client_Do env client
           (Header_Set req0 "User-Agent" "ApplicationHealthExtension/1.0")
         <> inl resp) ->
      List.filter is_EvBodyClose events = []).
Proof.
  intros Hclient. cbn zeta. unfold HttpHealthProbe_evaluate. rewrite Hclient. split.
  - intros req0 resp -> ->.
    destruct (_ || _); [split; reflexivity|].
    destruct (Body resp) as [b|berr]; [|split; reflexivity].
    destruct (json_Unmarshal env b) as [pr [jerr|]]; [split; reflexivity|].
    destruct (validate env pr); split; reflexivity.
  - intros Hnone.
    destruct (http_NewRequest env "GET" (HttpHealthProbe_address p)) as [req0|err];
      [|reflexivity].
    destruct (client_Do env client _) as [resp|derr] eqn:Hdo; [|reflexivity].
    by destruct (Hnone req0 resp).
Qed.

Lemma HttpHealthProbe_error_is_Unknown (env : NetEnv) (h : HttpHealthProbe)
  (st : HealthStatus) (err : error) :
  snd (HttpHealthProbe_evaluate env h) = Returns (st, Some err) -> st = Unknown.
Proof.
  unfold HttpHealthProbe_evaluate.
  destruct (http_NewRequest _ _ _) as [req|rerr]; [|by intros [= <- _]].
  destruct (HttpClient h) as [client|]; [|discriminate].
  destruct (client_Do _ _ _) as [resp|derr]; [|by intros [= <- _]].
  destruct (_ || _); [discriminate|].
  destruct (Body resp) as [b|berr]; [|by intros [= <- _]].
  destruct (json_Unmarshal env b) as [pr [jerr|]]; [by intros [= <- _]|].
  destruct (validate env pr); [by intros [= <- _]|discriminate].
Qed.

(** X15. a probe returns a non-nil error only as follows: an HTTP probe
    together with the status [Unknown]; a TCP probe together with
    [Unhealthy], and then the error is [errUnableToConvertType]; the
    default probe never. *)
Theorem evaluate_error_status (env : NetEnv) (p : HealthProbe) (st : HealthStatus)
  (err : error) :
  snd (evaluate env p) = Returns (st, Some err) ->
  match p with
  | TcpProbe _ => st = Unhealthy /\ err = errUnableToConvertType
  | HttpProbe _ => st = Unknown
  | DefaultProbe _ => False
  end.
Proof.
  destruct p as [t|h|d]; cbn [evaluate].
  - unfold TcpHealthProbe_evaluate.
    destruct (net_DialTimeout _ _ _ _) as [[c|c]|derr]; cbn [snd];
      intros [= <- <-] || intros [=]. by split.
  - apply HttpHealthProbe_error_is_Unknown.
  - discriminate.
Qed.

(** X16. whatever a TCP probe returns, the failed type conversion included,
    has the status type [StatusSuccess]; every HTTP result that comes with
    an error has the status type [StatusError]; and the status after the
    grace period has the type [StatusError] for an HTTP probe and
    [StatusSuccess] for the two others. *)
Theorem GetStatusType_of_probe_results (StatusType : Type)
  (StatusError StatusSuccess : StatusType) (env : NetEnv) :
  (forall t st err, snd (TcpHealthProbe_evaluate env t) = Returns (st, err) ->
     HealthStatus_GetStatusType StatusType StatusError StatusSuccess st = StatusSuccess)
  /\ (forall h st err, snd (HttpHealthProbe_evaluate env h) = Returns (st, Some err) ->
        HealthStatus_GetStatusType StatusType StatusError StatusSuccess st = StatusError)
  /\ (forall p,
        HealthStatus_GetStatusType StatusType StatusError StatusSuccess
          (healthStatusAfterGracePeriodExpires p)
        = match p with
          | HttpProbe _ => StatusError
          | TcpProbe _ | DefaultProbe _ => StatusSuccess
          end).
Proof.
  split; [|split].
  - intros t st err. unfold TcpHealthProbe_evaluate.
    destruct (net_DialTimeout _ _ _ _) as [[c|c]|derr]; intros [= <- _]; reflexivity.
  - intros h st err Hres.
    by rewrite (HttpHealthProbe_error_is_Unknown env h st err Hres).
  - intros [t|h|d]; reflexivity.
Qed.

(** ** The further properties on concrete runs *)

Local Abbreviation ex_attempt :=
  (attempt "vmwatch.conf" "vmwatch_linux_amd64" "vmwatch_linux_arm64"
     "applicationhealth-extension-arm64" "disk_io:clockskew" "/var/lib/waagent/events"
     "vmwatch.log" "bin/applicationhealth-extension" Ex.Dir Ex.Join).

Local Abbreviation ex_executeVMWatch n :=
  (executeVMWatch n "vmwatch.conf" "vmwatch_linux_amd64" "vmwatch_linux_arm64"
     "applicationhealth-extension-arm64" "disk_io:clockskew" "/var/lib/waagent/events"
     "vmwatch.log" "bin/applicationhealth-extension" Ex.Dir Ex.Join).

Local Abbreviation ex_setupVMWatchCommand :=
  (setupVMWatchCommand "vmwatch.conf" "vmwatch_linux_amd64" "vmwatch_linux_arm64"
     "applicationhealth-extension-arm64" "disk_io:clockskew" "/var/lib/waagent/events"
     "vmwatch.log" "bin/applicationhealth-extension" Ex.Dir Ex.Join).

(** A watcher that starts as process 4242, prints [done] and exits with
    status 0. *)
Local Abbreviation ex_cleanExit :=
  {| filepath_Abs := Ex.abs_ok; range_order := map_to_list;
     now := "2024-05-01T10:00:00Z";
     cmd_Start := {| startProcess := Some {| Pid := 4242 |}; startErr := None;
                     startOutput := EmptyString |};
     cmd_Wait := WaitReturns None "done" |}.

(** The state an earlier attempt with process 999 and output [old] left. *)
Local Abbreviation ex_usedState :=
  (set_pid 999 (set_combinedOutput "old" initialState)).

Lemma attempt_fresh_after_setup_witness :
  exists st2',
    ex_attempt (Ex.exits 4242 "2024-05-01T10:00:00Z") Ex.settings Ex.handlerEnv 2
      ex_usedState = Some st2'
    /\ pid st2' = 4242
    /\ combinedOutput st2' = "boom".
Proof.
  edestruct (attempt_fresh_after_setup "vmwatch.conf" "vmwatch_linux_amd64"
               "vmwatch_linux_arm64" "applicationhealth-extension-arm64"
               "disk_io:clockskew" "/var/lib/waagent/events" "vmwatch.log"
               "bin/applicationhealth-extension" Ex.Dir Ex.Join
               (Ex.exits 4242 "2024-05-01T10:00:00Z") Ex.settings Ex.handlerEnv 2
               initialState ex_usedState)
    as (st2' & Hrun & Hpid & Hout & _); [reflexivity | reflexivity |].
  exists st2'. split; [exact Hrun|]. split; [exact Hpid | exact Hout].
Defined.

Lemma attempt_clean_exit_is_an_error_witness :
  exists st' err,
    ex_attempt ex_cleanExit Ex.settings Ex.handlerEnv 1 initialState = Some st'
    /\ vmWatchErr st' = Some err
    /\ Errors.Unwrap err = None
    /\ Errors.Error err
       = "[" +:+ "2024-05-01T10:00:00Z" +:+ "][PID " +:+ Strconv.Itoa 4242
         +:+ "] Err: %!w(<nil>)" +:+ newline +:+ "Output: " +:+ EmptyString +:+ "done".
Proof.
  apply (attempt_clean_exit_is_an_error "vmwatch.conf" "vmwatch_linux_amd64"
           "vmwatch_linux_arm64" "applicationhealth-extension-arm64"
           "disk_io:clockskew" "/var/lib/waagent/events" "vmwatch.log"
           "bin/applicationhealth-extension" Ex.Dir Ex.Join
           ex_cleanExit Ex.settings Ex.handlerEnv 1 initialState
           "/var/lib/waagent/bin/bin/applicationhealth-extension" "done");
    reflexivity.
Defined.

Lemma startThenSetupFails_ends (i : Z) :
  attemptEnds "bin/applicationhealth-extension" (Ex.startThenSetupFails i) = true.
Proof.
  unfold Ex.startThenSetupFails. destruct (i =? 1); [reflexivity|].
  destruct (i =? 2); reflexivity.
Qed.

Lemma executeVMWatch_result_from_last_attempt_witness :
  exists st,
    ex_executeVMWatch 3 4%nat Ex.startThenSetupFails Ex.settings Ex.handlerEnv
    = Finished st
    /\ (GetMessage <$> sent (trace st))
       = ["VMWatch failed: [2024-05-01T10:00:09Z][PID 4243] Err: exit status 1"
          +:+ newline +:+ "Output: boom"].
Proof.
  edestruct (executeVMWatch_result_from_last_attempt 3 "vmwatch.conf"
               "vmwatch_linux_amd64" "vmwatch_linux_arm64"
               "applicationhealth-extension-arm64" "disk_io:clockskew"
               "/var/lib/waagent/events" "vmwatch.log" "bin/applicationhealth-extension"
               Ex.Dir Ex.Join Ex.startThenSetupFails Ex.settings Ex.handlerEnv 4%nat)
    as (st & Hrun & Hsent).
  - lia.
  - cbn. lia.
  - intros i _. apply startThenSetupFails_ends.
  - reflexivity.
  - exists st. split; [exact Hrun|]. rewrite Hsent. reflexivity.
Defined.

Lemma executeVMWatch_blocks_at_running_watcher_witness :
  ex_executeVMWatch 3 4%nat
    (fun i => if i =? 2 then Ex.keepsRunning 4243 "2024-05-01T10:00:05Z"
              else Ex.exits 4242 "2024-05-01T10:00:00Z")
    Ex.settings Ex.handlerEnv
  = BlockedForever.
Proof.
  apply (executeVMWatch_blocks_at_running_watcher 3 "vmwatch.conf"
           "vmwatch_linux_amd64" "vmwatch_linux_arm64"
           "applicationhealth-extension-arm64" "disk_io:clockskew"
           "/var/lib/waagent/events" "vmwatch.log" "bin/applicationhealth-extension"
           Ex.Dir Ex.Join _ Ex.settings Ex.handlerEnv 4%nat 2).
  - lia.
  - cbn. lia.
  - intros i Hi. assert (i = 1) as -> by lia. reflexivity.
  - reflexivity.
Defined.

Lemma executeVMWatch_returns_one_failure_witness :
  exists st r,
    ex_executeVMWatch 3 4%nat Ex.alwaysExits Ex.settings Ex.handlerEnv = Finished st
    /\ sent (trace st) = [r]
    /\ Status r = Failed
    /\ VMWatchStatus_GetStatusType string "warning" "error" "success" (Status r)
       = "error".
Proof.
  eexists.
  edestruct (executeVMWatch_returns_one_failure 3 "vmwatch.conf"
               "vmwatch_linux_amd64" "vmwatch_linux_arm64"
               "applicationhealth-extension-arm64" "disk_io:clockskew"
               "/var/lib/waagent/events" "vmwatch.log" "bin/applicationhealth-extension"
               Ex.Dir Ex.Join string "warning" "error" "success"
               Ex.alwaysExits Ex.settings Ex.handlerEnv 4%nat)
    as (r & _ & Hsent & Hstatus & _ & Htype & _); [vm_compute; reflexivity|].
  exists r. split; [vm_compute; reflexivity|]. auto.
Defined.

Lemma executeVMWatch_without_attempts_witness :
  exists st,
    ex_executeVMWatch 0 1%nat Ex.alwaysExits Ex.settings Ex.handlerEnv = Finished st
    /\ attempts (trace st) = 0%nat
    /\ recorded st = []
    /\ sent (trace st) = [{| Status := Failed; Error := None |}]
    /\ (GetMessage <$> sent (trace st)) = ["VMWatch failed: <nil>"].
Proof.
  apply (executeVMWatch_without_attempts 0 "vmwatch.conf" "vmwatch_linux_amd64"
           "vmwatch_linux_arm64" "applicationhealth-extension-arm64"
           "disk_io:clockskew" "/var/lib/waagent/events" "vmwatch.log"
           "bin/applicationhealth-extension" Ex.Dir Ex.Join
           Ex.alwaysExits Ex.settings Ex.handlerEnv 0%nat).
  lia.
Defined.

Lemma GetVMWatchBinaryFullPath_architecture_witness :
  GetVMWatchBinaryFullPath "vmwatch_linux_amd64" "vmwatch_linux_arm64"
    "applicationhealth-extension-arm64" "bin/applicationhealth-extension-arm64"
    Ex.Join "/var/lib/waagent/bin"
  = Ex.Join ["/var/lib/waagent/bin"; "VMWatch"; "vmwatch_linux_arm64"].
Proof.
  apply (GetVMWatchBinaryFullPath_architecture "vmwatch_linux_amd64"
           "vmwatch_linux_arm64" "applicationhealth-extension-arm64"
           "bin/applicationhealth-extension-arm64" Ex.Join "/var/lib/waagent/bin").
  exists "bin/", EmptyString. reflexivity.
Defined.

Lemma setupVMWatchCommand_result_witness :
  ex_setupVMWatchCommand (Ex.setupFails "2024-05-01T10:00:05Z") Ex.settings Ex.handlerEnv
  = inr (Errors.New "getwd: no such file or directory").
Proof.
  apply (setupVMWatchCommand_result "vmwatch.conf" "vmwatch_linux_amd64"
           "vmwatch_linux_arm64" "applicationhealth-extension-arm64"
           "disk_io:clockskew" "/var/lib/waagent/events" "vmwatch.log"
           "bin/applicationhealth-extension" Ex.Dir Ex.Join
           (Ex.setupFails "2024-05-01T10:00:05Z") Ex.settings Ex.handlerEnv).
  reflexivity.
Defined.


Local Abbreviation ex_tcp8080 :=
  {| protocol := "tcp"; port := 8080; requestPath := EmptyString |}.

Lemma NewHealthProbe_tcp_target_witness :
  address (snd (NewHealthProbe ex_tcp8080)) = "localhost:8080"
  /\ exists rest,
       fst (evaluate Ex.unreachable (snd (NewHealthProbe ex_tcp8080)))
       = EvDial "tcp" "localhost:8080" 30000000000 :: rest.
Proof.
  apply (NewHealthProbe_tcp_target ex_tcp8080 Ex.unreachable). reflexivity.
Defined.

Lemma NewHealthProbe_tcp_address_determines_port_witness :
  port ex_tcp8080 = port {| protocol := "tcp"; port := 8080; requestPath := "/x" |}.
Proof.
  apply (NewHealthProbe_tcp_address_determines_port ex_tcp8080
           {| protocol := "tcp"; port := 8080; requestPath := "/x" |});
    reflexivity.
Defined.

Lemma NewHttpHealthProbe_client_witness :
  is_Some (HttpClient (NewHttpHealthProbe "https" "/health" 8443)).
Proof.
  apply (NewHttpHealthProbe_client "https" "/health" 8443). right. reflexivity.
Defined.

Local Abbreviation ex_httpProbe := (NewHttpHealthProbe "http" "/health" 8080).

Lemma HttpHealthProbe_evaluate_request_witness :
  (length (List.filter is_EvDo
             (fst (HttpHealthProbe_evaluate (Ex.endpoint 200 Ex.healthyBody)
                     ex_httpProbe))) <= 1)%nat.
Proof.
  eapply (HttpHealthProbe_evaluate_request (Ex.endpoint 200 Ex.healthyBody)
            ex_httpProbe).
  reflexivity.
Defined.

Lemma HttpHealthProbe_evaluate_closes_body_witness :
  last (fst (HttpHealthProbe_evaluate (Ex.endpoint 503 Ex.healthyBody) ex_httpProbe))
  = Some EvBodyClose.
Proof.
  edestruct (HttpHealthProbe_evaluate_closes_body (Ex.endpoint 503 Ex.healthyBody)
               ex_httpProbe) as [Hclosed _]; [reflexivity|].
  edestruct Hclosed as [Hlast _]; [reflexivity | reflexivity | exact Hlast].
Defined.

Lemma evaluate_error_status_witness :
  Unhealthy = Unhealthy /\ errUnableToConvertType = errUnableToConvertType.
Proof.
  apply (evaluate_error_status Ex.otherConn
           (TcpProbe {| Tcp_Address := "localhost:8080" |})
           Unhealthy errUnableToConvertType).
  reflexivity.
Defined.

Lemma GetStatusType_of_probe_results_witness :
  HealthStatus_GetStatusType string "error" "success" Unhealthy = "success".
Proof.
  edestruct (GetStatusType_of_probe_results string "error" "success" Ex.otherConn)
    as [Htcp _].
  apply (Htcp {| Tcp_Address := "localhost:8080" |} Unhealthy
           (Some errUnableToConvertType)).
  reflexivity.
Defined.
